(** * Cloudy voice assistant: session gateway

    A shallow embedding of the WebSocket session gateway
    ([api/livekit_routes.py]) and of the Gemini connector
    ([connectors/gemini_live.py]), with the message schemas of
    [models/schemas.py].

    Conventions of the embedding.
    - Python values that travel in messages are terms of [value]; a Python
      [dict] literal is an association list in insertion order; the two
      registries of the connection manager are finite maps.
    - Everything outside the repository is an oracle of the environment
      [Env]: the wall clock, the Gemini model, [uuid4], HMAC-SHA256,
      base64 decoding, and the texts of library exceptions. An oracle that is
      consulted repeatedly is a function of the number of earlier calls,
      counted in [World].
    - [time.time()] returns a float; timestamps are rationals here,
      differences of timestamps are exact, and [int(...)] truncates toward
      zero.
    - Exceptions are explicit: a computation that can raise returns a
      [result]; [try]/[except] is [try_except].
    - A frame handed to the message loop is viewed through [json.loads]:
      the text parses to a [value], or it is not JSON, or it is beyond
      what the decoder takes (nesting, length of an integer).
    - [websocket.send_text] appends to the log [sent] and is taken to
      succeed; one message loop handles its frames one after the other.
      Logging calls are omitted. *)

From Stdlib Require Import ZArith QArith Qround.
From stdpp Require Import gmap strings list pretty.

Local Close Scope Q_scope.
Local Open Scope string_scope.
Local Open Scope list_scope.

(** ** Python values *)

#[local] Set Warnings "-register-all".

Inductive value : Type :=
| VNone
| VBool (b : bool)
| VInt (z : Z)
| VFloat (q : Q)
| VStr (s : string)
| VDatetime (t : Q)
| VList (l : list value)
| VDict (d : list (string * value)).

Abbreviation pydict := (list (string * value)).

(** [d.get(k)] on a dict built in insertion order. *)
Fixpoint dict_get (k : string) (d : pydict) : option value :=
  match d with
  | [] => None
  | (k', v) :: d' => if String.eqb k' k then Some v else dict_get k d'
  end.

(** [v == s] for a string (or [str]-enum member) [s], where [v] is the
    result of a [get] ([None] of the option is Python's [None]). *)
Definition py_eq_str (v : option value) (s : string) : bool :=
  match v with
  | Some (VStr s') => String.eqb s' s
  | _ => false
  end.

(** Truth value of an optional string: [None] and [""] are falsy. *)
Definition str_truthy (o : option string) : bool :=
  match o with
  | Some s => negb (String.eqb s "")
  | None => false
  end.

(** [int(x)] on a float truncates toward zero. *)
Definition py_int (q : Q) : Z := Z.quot (Qnum q) (Z.pos (Qden q)).

(** What [json.dumps] accepts: everything but [datetime] objects. *)
Fixpoint json_serializable (v : value) : bool :=
  match v with
  | VDatetime _ => false
  | VList l => forallb json_serializable l
  | VDict d => forallb (fun kv => json_serializable (snd kv)) d
  | _ => true
  end.

(** ** Exceptions *)

Inductive exc_class :=
| JSONDecodeError | AttributeError | KeyError | ValidationError
| ValueError | TypeError | BinasciiError | ApiError | RecursionError.

Record exn := Exn { exc_cls : exc_class; exc_text : string }.

Inductive result (A : Type) : Type :=
| Ok (a : A)
| Raise (e : exn).
Arguments Ok {A} a.
Arguments Raise {A} e.

(** State and exception monad: the state survives a raise, as the
    mutations of a Python object do. *)
Definition M (S A : Type) : Type := S -> result A * S.

Definition ret {S A} (a : A) : M S A := fun s => (Ok a, s).
Definition raise {S A} (e : exn) : M S A := fun s => (Raise e, s).
Definition bind {S A B} (m : M S A) (k : A -> M S B) : M S B :=
  fun s => match m s with
           | (Ok a, s') => k a s'
           | (Raise e, s') => (Raise e, s')
           end.
Definition try_except {S A} (m : M S A) (h : exn -> M S A) : M S A :=
  fun s => match m s with
           | (Ok a, s') => (Ok a, s')
           | (Raise e, s') => h e s'
           end.
Definition get {S} : M S S := fun s => (Ok s, s).
Definition modify {S} (f : S -> S) : M S unit := fun s => (Ok tt, f s).
Definition lift_result {S A} (r : result A) : M S A := fun s => (r, s).

Declare Scope py_scope.
Delimit Scope py_scope with py.
Notation "x <- m ;; k" := (bind m (fun x => k))
  (at level 100, m at next level, right associativity) : py_scope.
Notation "m ;;; k" := (bind m (fun _ => k))
  (at level 100, right associativity) : py_scope.

(** ** The environment *)

Record Settings := {
  livekit_api_key : string;
  livekit_api_secret : string;
  livekit_room_prefix : string;
  livekit_url : string;
  gemini_model : string;
}.

(** Outcome of one [genai_model.generate_content] call: it raises, it
    returns [None], or it returns a response whose [.text] is [text]
    (a response whose [.text] accessor raises counts as a raise). *)
Inductive ai_outcome :=
| AIRaises (text : string)
| AINone
| AIResponse (text : string).

Inductive field_type := TDatetime | TInt.

Record Env := {
  settings : Settings;
  (** successive readings of the wall clock *)
  time_time : nat -> Q;
  (** successive outcomes of the Gemini model *)
  generate_content : nat -> ai_outcome;
  (** successive outcomes of [genai.GenerativeModel(...)]: [Some text]
      when it raises *)
  GenerativeModel : nat -> option string;
  uuid4 : nat -> string;
  (** [hmac.new(key, msg, sha256).hexdigest()] *)
  hmac_sha256_hex : string -> string -> string;
  (** [base64.b64decode]: [Some text] when it raises *)
  b64decode_error : string -> option string;
  (** whether pydantic accepts a value for a [datetime] or [int] field *)
  pydantic_coerces : field_type -> value -> bool;
  (** [str(e)] of a pydantic validation error *)
  validation_error_text : string -> pydict -> string;
  (** [str(v)] of a value that is neither [None], a bool, an int nor a
      string *)
  repr_text : value -> string;
  (** [datetime.isoformat()] *)
  isoformat : Q -> string;
}.

Record World := {
  clock_reads : nat;
  ai_calls : nat;
  uuid_draws : nat;
  model_inits : nat;
}.

Definition tick (w : World) : World :=
  {| clock_reads := S (clock_reads w); ai_calls := ai_calls w;
     uuid_draws := uuid_draws w; model_inits := model_inits w |}.
Definition tick_ai (w : World) : World :=
  {| clock_reads := clock_reads w; ai_calls := S (ai_calls w);
     uuid_draws := uuid_draws w; model_inits := model_inits w |}.
Definition tick_uuid (w : World) : World :=
  {| clock_reads := clock_reads w; ai_calls := ai_calls w;
     uuid_draws := S (uuid_draws w); model_inits := model_inits w |}.
Definition tick_init (w : World) : World :=
  {| clock_reads := clock_reads w; ai_calls := ai_calls w;
     uuid_draws := uuid_draws w; model_inits := S (model_inits w) |}.

(** [str(v)], as an f-string formats it. *)
Definition py_str (env : Env) (v : value) : string :=
  match v with
  | VNone => "None"
  | VBool true => "True"
  | VBool false => "False"
  | VInt z => pretty z
  | VStr s => s
  | _ => repr_text env v
  end.

(** [time.time()], [datetime.now()], [datetime.utcnow()]: the next reading. *)
Definition read_clock (env : Env) (w : World) : Q * World :=
  (time_time env (clock_reads w), tick w).

Definition now (env : Env) : M World Q :=
  fun w => let '(t, w') := read_clock env w in (Ok t, w').

(** [d[k]] *)
Definition subscript (k : string) (d : pydict) : result value :=
  match dict_get k d with
  | Some v => Ok v
  | None => Raise (Exn KeyError k)
  end.

(** [json.dumps], with the serialised document standing for its text. *)
Definition json_dumps (v : value) : result value :=
  if json_serializable v then Ok v
  else Raise (Exn TypeError "Object of type datetime is not JSON serializable").

(** ** models/schemas.py *)

Module ActionType.
Definition START_SESSION := "start_session".
Definition AUDIO_INPUT := "audio_input".
Definition SCREEN_SHARE_FRAME := "screen_share_frame".
Definition END_SESSION := "end_session".
Definition AUDIO_OUTPUT := "audio_output".
Definition TEXT_RESPONSE := "text_response".
Definition ERROR := "error".
Definition members : list string :=
  [START_SESSION; AUDIO_INPUT; SCREEN_SHARE_FRAME; END_SESSION;
   AUDIO_OUTPUT; TEXT_RESPONSE; ERROR].
End ActionType.

(** The models are pydantic models built from the keys of the decoded
    dict. A [str] field takes a string and nothing else; an [Optional]
    field also takes [None] and may be absent; a field with a default may
    be absent; keys a model does not declare are ignored. What is accepted
    for a [datetime] or an [int] field is left to the oracle
    [pydantic_coerces]. Of a validated message, the fields the handlers
    read are kept. Building a model is validating the keys
    ([..._validate]) after the defaults of absent keys have been
    computed; one default, that of [timestamp], reads the clock
    ([..._new]).

    Field validators: [None] of the outer option is a validation failure. *)
Definition required_str (d : pydict) (k : string) : option string :=
  match dict_get k d with
  | Some (VStr s) => Some s
  | _ => None
  end.

Definition optional_str (d : pydict) (k : string) : option (option string) :=
  match dict_get k d with
  | None | Some VNone => Some None
  | Some (VStr s) => Some (Some s)
  | Some _ => None
  end.

Definition defaulted_str (d : pydict) (k : string) : bool :=
  match dict_get k d with
  | None | Some (VStr _) => true
  | Some _ => false
  end.

Definition defaulted (env : Env) (ty : field_type) (d : pydict) (k : string) : bool :=
  match dict_get k d with
  | None => true
  | Some v => pydantic_coerces env ty v
  end.

Definition action_field (d : pydict) : bool :=
  match dict_get "action" d with
  | None => true
  | Some (VStr a) => bool_decide (a ∈ ActionType.members)
  | Some _ => false
  end.

(** The fields every [WebSocketMessage] declares. *)
Definition WebSocketMessage_fields (env : Env) (d : pydict) : bool :=
  action_field d && defaulted env TDatetime d "timestamp".

Definition validation_error {A} (env : Env) (model : string) (d : pydict) : result A :=
  Raise (Exn ValidationError (validation_error_text env model d)).

Record StartSessionMessage := {
  ssm_user_id : string;
  ssm_session_id : option string;
  ssm_config : option pydict;
}.

(** The validation of the keys of the decoded dict against
    [StartSessionMessage]. *)
Definition StartSessionMessage_validate (env : Env) (d : pydict) : result StartSessionMessage :=
  let config :=
    match dict_get "config" d with
    | None => Some (Some [])
    | Some VNone => Some None
    | Some (VDict c) => Some (Some c)
    | Some _ => None
    end in
  match required_str d "user_id", optional_str d "session_id", config with
  | Some u, Some sid, Some c =>
      if WebSocketMessage_fields env d
      then Ok {| ssm_user_id := u; ssm_session_id := sid; ssm_config := c |}
      else validation_error env "StartSessionMessage" d
  | _, _, _ => validation_error env "StartSessionMessage" d
  end.

Record AudioInputMessage := { aim_session_id : string; aim_data : string }.

(** The validation of the keys against [AudioInputMessage]. *)
Definition AudioInputMessage_validate (env : Env) (d : pydict) : result AudioInputMessage :=
  match required_str d "session_id", required_str d "data", optional_str d "user_id" with
  | Some sid, Some a, Some _ =>
      if WebSocketMessage_fields env d && defaulted_str d "format"
         && defaulted env TInt d "sample_rate" && defaulted env TInt d "channels"
      then Ok {| aim_session_id := sid; aim_data := a |}
      else validation_error env "AudioInputMessage" d
  | _, _, _ => validation_error env "AudioInputMessage" d
  end.

Record ScreenShareFrameMessage := { sfm_session_id : string; sfm_data : string }.

(** The validation of the keys against [ScreenShareFrameMessage]. *)
Definition ScreenShareFrameMessage_validate (env : Env) (d : pydict) : result ScreenShareFrameMessage :=
  match required_str d "session_id", required_str d "data", optional_str d "user_id" with
  | Some sid, Some a, Some _ =>
      if WebSocketMessage_fields env d && defaulted_str d "format"
      then Ok {| sfm_session_id := sid; sfm_data := a |}
      else validation_error env "ScreenShareFrameMessage" d
  | _, _, _ => validation_error env "ScreenShareFrameMessage" d
  end.

Record EndSessionMessage := { esm_session_id : string }.

(** The validation of the keys against [EndSessionMessage]. *)
Definition EndSessionMessage_validate (env : Env) (d : pydict) : result EndSessionMessage :=
  match required_str d "session_id", optional_str d "user_id" with
  | Some sid, Some _ =>
      if WebSocketMessage_fields env d
      then Ok {| esm_session_id := sid |}
      else validation_error env "EndSessionMessage" d
  | _, _ => validation_error env "EndSessionMessage" d
  end.

(** [timestamp: datetime = Field(default_factory=datetime.utcnow)], the
    field every model inherits from [WebSocketMessage] (and
    [ScreenShareFrameMessage] declares again): when the key is absent the
    factory is called, whether the other keys validate or not. *)
Definition default_timestamp (env : Env) (d : pydict) : M World unit :=
  match dict_get "timestamp" d with
  | None => (now env ;;; ret tt)%py
  | Some _ => ret tt
  end.

(** A model built from the keys of a dict. *)
Definition construct {A} (validate : Env -> pydict -> result A) (env : Env) (d : pydict)
    : M World A :=
  (default_timestamp env d ;;; lift_result (validate env d))%py.

(** The constructors, as the handlers call them on the decoded dict. *)
Definition StartSessionMessage_new := construct StartSessionMessage_validate.
Definition AudioInputMessage_new := construct AudioInputMessage_validate.
Definition ScreenShareFrameMessage_new := construct ScreenShareFrameMessage_validate.
Definition EndSessionMessage_new := construct EndSessionMessage_validate.

(** [TextResponseMessage(action=..., session_id=..., text=...).dict()]:
    the [timestamp] default is a [datetime] object. *)
Definition TextResponseMessage_dict (env : Env) (session_id : string) (text : value)
    : M World value :=
  (t <- now env ;;
   match text with
   | VStr _ =>
       ret (VDict [("action", VStr ActionType.TEXT_RESPONSE);
                   ("timestamp", VDatetime t);
                   ("session_id", VStr session_id);
                   ("user_id", VNone);
                   ("text", text);
                   ("confidence", VNone)])
   | _ =>
       raise (Exn ValidationError
                (validation_error_text env "TextResponseMessage" [("text", text)]))
   end)%py.

(** [AudioOutputMessage(action=..., session_id=..., data=..., ...).dict()] *)
Definition AudioOutputMessage_dict (env : Env) (session_id data : string) : M World value :=
  (t <- now env ;;
   ret (VDict [("action", VStr ActionType.AUDIO_OUTPUT);
               ("timestamp", VDatetime t);
               ("session_id", VStr session_id);
               ("user_id", VNone);
               ("data", VStr data);
               ("format", VStr "wav");
               ("sample_rate", VInt 16000);
               ("channels", VInt 1)]))%py.

(** ** connectors/gemini_live.py *)

Record Session := {
  s_id : string;
  s_user_id : string;
  s_history : list pydict;
  s_config : pydict;
  s_start_time : Q;
  s_status : string;
  s_end_time : option Q;
}.

Record GeminiLiveConnector := {
  model_name : string;
  (** [genai_model is not None] *)
  genai_model : bool;
  session : option Session;
  is_connected : bool;
}.

(** A method of the connector runs on [self] and the world. *)
Abbreviation ConnState := (GeminiLiveConnector * World)%type.

Definition clock_read (env : Env) (s : ConnState) : Q * ConnState :=
  let '(t, w) := read_clock env (snd s) in (t, (fst s, w)).

Definition clock (env : Env) : M ConnState Q :=
  fun s => let '(t, s') := clock_read env s in (Ok t, s').

Definition self_get : M ConnState GeminiLiveConnector :=
  fun s => (Ok (fst s), s).

Definition self_modify (f : GeminiLiveConnector -> GeminiLiveConnector) : M ConnState unit :=
  fun s => (Ok tt, (f (fst s), snd s)).

Definition set_session (o : option Session) (connected : bool)
    (self : GeminiLiveConnector) : GeminiLiveConnector :=
  {| model_name := model_name self; genai_model := genai_model self;
     session := o; is_connected := connected |}.

Definition push_history (entry : pydict) (s : Session) : Session :=
  {| s_id := s_id s; s_user_id := s_user_id s;
     s_history := s_history s ++ [entry]; s_config := s_config s;
     s_start_time := s_start_time s; s_status := s_status s;
     s_end_time := s_end_time s |}.

(** [self.session["history"].append(entry)] *)
Definition append_history (entry : pydict) : M ConnState unit :=
  (self <- self_get ;;
   match session self with
   | Some s => self_modify (set_session (Some (push_history entry s)) (is_connected self))
   | None => raise (Exn TypeError "'NoneType' object is not subscriptable")
   end)%py.

(** [GeminiLiveConnector()] *)
Definition GeminiLiveConnector_new (env : Env) : GeminiLiveConnector :=
  {| model_name := gemini_model (settings env); genai_model := false;
     session := None; is_connected := false |}.

Definition initialize (env : Env) : M ConnState unit :=
  fun '(self, w) =>
    match GenerativeModel env (model_inits w) with
    | None =>
        (Ok tt, ({| model_name := model_name self; genai_model := true;
                    session := session self; is_connected := is_connected self |},
                 tick_init w))
    | Some text => (Raise (Exn ApiError text), (self, tick_init w))
    end.

(** [_generate_content]: the text of the response, [None] for no
    response; an exception of the model is logged and raised again. *)
Definition _generate_content (env : Env) (content_parts : list pydict)
    : M ConnState (option string) :=
  fun '(self, w) =>
    if genai_model self then
      match generate_content env (ai_calls w) with
      | AIRaises text => (Raise (Exn ApiError text), (self, tick_ai w))
      | AINone => (Ok None, (self, tick_ai w))
      | AIResponse text => (Ok (Some text), (self, tick_ai w))
      end
    else
      (Raise (Exn AttributeError "'NoneType' object has no attribute 'generate_content'"),
       (self, w)).

(** The inner [convert] of [_safe_json_serialize], on the values of the
    model. These are plain data; the branch of the source for an object
    with a [__dict__], which comes before the one for dicts and lists, has
    no value to apply to here, and the recursion limit of the interpreter
    is not modelled. [start_session], the one caller, passes a dict of
    four strings. *)
Fixpoint convert (env : Env) (obj : value) : value :=
  match obj with
  | VDatetime t => VStr (isoformat env t)
  | VDict d => VDict (map (fun kv => (fst kv, convert env (snd kv))) d)
  | VList l => VList (map (convert env) l)
  | _ => obj
  end.

Definition py_truthy (v : value) : bool :=
  match v with
  | VNone | VBool false | VStr "" | VList [] | VDict [] => false
  | VInt z => negb (Z.eqb z 0)
  | VFloat q => negb (Qeq_bool q 0)
  | _ => true
  end.

Definition _safe_json_serialize (env : Env) (obj : value) : result value :=
  let converted := convert env obj in
  match json_dumps converted with
  | Ok _ => Ok converted
  | Raise _ => Ok (VDict [("text", VStr (if py_truthy obj then py_str env obj else ""))])
  end.

Definition greeting_content : list pydict :=
  [[("text", VStr ("You are Cloudy, a helpful AWS expert AI assistant. "
       +:+ "You are having a voice conversation with a user while watching their screen. "
       +:+ "Your primary goal is to provide clear, accurate, and concise verbal guidance on AWS services. "
       +:+ "Start with a friendly greeting and ask how you can help them with their AWS console. "
       +:+ "Keep your response natural and conversational, suitable for voice interaction. "
       +:+ "Do not include markdown or code formatting in your response."))]].

Definition default_greeting : string :=
  "Hello! I'm Cloudy, your AWS assistant. How can I help you today?".

Definition start_result (session_id greeting : string) : value :=
  VDict [("status", VStr "success");
         ("session_id", VStr session_id);
         ("message", VStr "Session started successfully");
         ("greeting", VStr greeting)].

Definition start_session (env : Env) (session_id user_id : string)
    (config : option pydict) : M ConnState value :=
  (created_at <- clock env ;;
   start_time <- clock env ;;
   self_modify (set_session
     (Some {| s_id := session_id; s_user_id := user_id; s_history := [];
              s_config := default [] config; s_start_time := start_time;
              s_status := "active"; s_end_time := None |}) true) ;;;
   greeting_response <- _generate_content env greeting_content ;;
   greeting_text <-
     match greeting_response with
     | Some text =>
         if String.eqb text "" then ret ""
         else (t <- clock env ;;
               append_history [("type", VStr "assistant_greeting");
                               ("content", VStr text);
                               ("timestamp", VFloat t);
                               ("session_id", VStr session_id)] ;;;
               ret text)
     | None => ret ""
     end ;;
   let result :=
     start_result session_id
       (if String.eqb greeting_text "" then default_greeting else greeting_text) in
   match _safe_json_serialize env result with
   | Ok _ => ret result
   | Raise _ => ret (start_result session_id default_greeting)
   end)%py.

(** An async generator, run up to its next [yield]: it has finished, or
    it hands out an item and waits to be resumed. The code after a
    [yield] runs only if the consumer asks for the next item. *)
Inductive AsyncGen : Type :=
| StopAsyncIteration (s : ConnState)
| Yield (item : pydict) (s : ConnState) (resume : ConnState -> AsyncGen).

Definition audio_content (audio_data : string) : list pydict :=
  [[("text", VStr ("You are a helpful AI assistant that provides step-by-step guidance to users. "
       +:+ "Respond naturally and conversationally, focusing on being helpful and clear. "
       +:+ "Keep responses concise but informative."))];
   [("inline_data", VDict [("mime_type", VStr "audio/wav"); ("data", VStr audio_data)])]].

Definition screen_content (image_data : string) : list pydict :=
  [[("text", VStr ("You are a helpful AI assistant that analyzes screen content and provides guidance. "
       +:+ "Look at the screen content and provide helpful, step-by-step instructions "
       +:+ "based on what you see. Be specific and actionable."))];
   [("inline_data", VDict [("mime_type", VStr "image/png"); ("data", VStr image_data)])]].

Definition b64decode (env : Env) (data : string) : M ConnState unit :=
  match b64decode_error env data with
  | None => ret tt
  | Some text => raise (Exn BinasciiError text)
  end.

(** The [try] block of [process_audio_input] up to its first [yield]:
    the text to hand out, if the model answered with one. *)
Definition audio_try (env : Env) (audio_data session_id : string)
    : M ConnState (option string) :=
  (self <- self_get ;;
   if negb (is_connected self) || negb (bool_decide (is_Some (session self)))
   then raise (Exn ValueError "No active session")
   else
     b64decode env audio_data ;;;
     response <- _generate_content env (audio_content audio_data) ;;
     match response with
     | Some text =>
         if String.eqb text "" then ret None
         else
           t1 <- clock env ;;
           append_history [("type", VStr "user_audio");
                           ("timestamp", VFloat t1);
                           ("session_id", VStr session_id)] ;;;
           t2 <- clock env ;;
           append_history [("type", VStr "assistant_text");
                           ("content", VStr text);
                           ("timestamp", VFloat t2);
                           ("session_id", VStr session_id)] ;;;
           ret (Some text)
     | None => ret None
     end)%py.

Definition text_response_item (text session_id : string) (t : Q) : pydict :=
  [("type", VStr "text_response"); ("content", VStr text);
   ("session_id", VStr session_id); ("timestamp", VFloat t)].

Definition audio_response_item (session_id : string) (t : Q) : pydict :=
  [("type", VStr "audio_response"); ("content", VStr "");
   ("session_id", VStr session_id); ("timestamp", VFloat t);
   ("note", VStr "Text-to-speech conversion to be implemented")].

Definition error_item (e : exn) (session_id : string) (t : Q) : pydict :=
  [("type", VStr "error"); ("error", VStr (exc_text e));
   ("session_id", VStr session_id); ("timestamp", VFloat t)].

Definition process_audio_input (env : Env) (audio_data session_id : string)
    (s : ConnState) : AsyncGen :=
  match audio_try env audio_data session_id s with
  | (Ok (Some text), s1) =>
      let '(t, s2) := clock_read env s1 in
      Yield (text_response_item text session_id t) s2 (fun s3 =>
        let '(t', s4) := clock_read env s3 in
        Yield (audio_response_item session_id t') s4 (fun s5 =>
          StopAsyncIteration s5))
  | (Ok None, s1) => StopAsyncIteration s1
  | (Raise e, s1) =>
      let '(t, s2) := clock_read env s1 in
      Yield (error_item e session_id t) s2 (fun s3 => StopAsyncIteration s3)
  end.

(** The [try] block of [process_screen_share] up to its [yield]. *)
Definition screen_try (env : Env) (image_data session_id : string)
    : M ConnState (option string) :=
  (self <- self_get ;;
   if negb (is_connected self) || negb (bool_decide (is_Some (session self)))
   then raise (Exn ValueError "No active session")
   else
     response <- _generate_content env (screen_content image_data) ;;
     match response with
     | Some text =>
         if String.eqb text "" then ret None
         else
           t1 <- clock env ;;
           append_history [("type", VStr "screen_share");
                           ("timestamp", VFloat t1);
                           ("session_id", VStr session_id)] ;;;
           t2 <- clock env ;;
           append_history [("type", VStr "assistant_text");
                           ("content", VStr text);
                           ("timestamp", VFloat t2);
                           ("session_id", VStr session_id)] ;;;
           ret (Some text)
     | None => ret None
     end)%py.

Definition process_screen_share (env : Env) (image_data session_id : string)
    (s : ConnState) : AsyncGen :=
  match screen_try env image_data session_id s with
  | (Ok (Some text), s1) =>
      let '(t, s2) := clock_read env s1 in
      Yield (text_response_item text session_id t) s2 (fun s3 =>
        StopAsyncIteration s3)
  | (Ok None, s1) => StopAsyncIteration s1
  | (Raise e, s1) =>
      let '(t, s2) := clock_read env s1 in
      Yield (error_item e session_id t) s2 (fun s3 => StopAsyncIteration s3)
  end.

Definition end_session (env : Env) (session_id : string) : M ConnState value :=
  (self <- self_get ;;
   match session self with
   | Some s =>
       if String.eqb (s_id s) session_id then
         end_time <- clock env ;;
         self_modify (set_session
           (Some {| s_id := s_id s; s_user_id := s_user_id s;
                    s_history := s_history s; s_config := s_config s;
                    s_start_time := s_start_time s; s_status := "ended";
                    s_end_time := Some end_time |}) false) ;;;
         ret (VDict [("status", VStr "success");
                     ("session_id", VStr session_id);
                     ("message", VStr "Session ended successfully");
                     ("duration", VFloat (end_time - s_start_time s)%Q)])
       else raise (Exn ValueError ("Session " +:+ session_id +:+ " not found or already ended"))
   | None => raise (Exn ValueError ("Session " +:+ session_id +:+ " not found or already ended"))
   end)%py.

Definition is_session_active (self : GeminiLiveConnector) (session_id : string) : bool :=
  match session self with
  | Some s => String.eqb (s_id s) session_id && String.eqb (s_status s) "active"
  | None => false
  end.

(** [len(self.session["history"])], as [get_session_info] reports it. *)
Definition history_count (self : GeminiLiveConnector) : nat :=
  match session self with
  | Some s => length (s_history s)
  | None => 0
  end.

(** ** api/livekit_routes.py *)

Record RoomSession := {
  room_name : string;
  rs_user_id : string;
  access_token : string;
  rs_start_time : Q;
  rs_status : string;
}.

(** The global [manager] ([LiveKitConnectionManager]), the world, and
    what has been written to the websocket. A connector object is
    referenced from its entry of [session_connectors] only, so the entry
    holds the object. *)
Record State := {
  active_connections : gset string;
  session_connectors : gmap string GeminiLiveConnector;
  room_sessions : gmap string RoomSession;
  world : World;
  sent : list value;
}.

Definition set_world (w : World) (st : State) : State :=
  {| active_connections := active_connections st;
     session_connectors := session_connectors st;
     room_sessions := room_sessions st; world := w; sent := sent st |}.

Definition in_world {A} (m : M World A) : M State A :=
  fun st => let '(r, w) := m (world st) in (r, set_world w st).

(** A method call on a connector object. *)
Definition call {A} (m : M ConnState A) (self : GeminiLiveConnector)
    : M State (A * GeminiLiveConnector) :=
  fun st =>
    match m (self, world st) with
    | (Ok a, (self', w)) => (Ok (a, self'), set_world w st)
    | (Raise e, (_, w)) => (Raise e, set_world w st)
    end.

(** [websocket.send_text] *)
Definition send_text (doc : value) : M State unit :=
  modify (fun st =>
    {| active_connections := active_connections st;
       session_connectors := session_connectors st;
       room_sessions := room_sessions st; world := world st;
       sent := sent st ++ [doc] |}).

(** [websocket.send_text(json.dumps(message))] *)
Definition send_json (message : value) : M State unit :=
  (doc <- lift_result (json_dumps message) ;; send_text doc)%py.

Definition error_message (code message : string) : value :=
  VDict [("action", VStr "error"); ("code", VStr code); ("message", VStr message)].

(** [manager.session_connectors[id] = connector] followed by
    [manager.room_sessions[id] = info] *)
Definition register (session_id : string) (connector : GeminiLiveConnector)
    (info : RoomSession) (st : State) : State :=
  {| active_connections := active_connections st;
     session_connectors := <[session_id := connector]> (session_connectors st);
     room_sessions := <[session_id := info]> (room_sessions st);
     world := world st; sent := sent st |}.

(** [manager.disconnect] *)
Definition disconnect (session_id : string) (st : State) : State :=
  {| active_connections := active_connections st ∖ {[session_id]};
     session_connectors := delete session_id (session_connectors st);
     room_sessions := delete session_id (room_sessions st);
     world := world st; sent := sent st |}.

Definition token_data (env : Env) (participant_identity room_name : string)
    (expires : Z) : string :=
  livekit_api_key (settings env) +:+ ":" +:+ participant_identity +:+ ":"
    +:+ room_name +:+ ":" +:+ pretty expires.

(** [manager.create_access_token] *)
Definition create_access_token (env : Env) (room_name participant_identity : string)
    : M World string :=
  (t <- now env ;;
   let timestamp := py_int t in
   let expires := (timestamp + 3600)%Z in
   let data := token_data env participant_identity room_name expires in
   let signature := hmac_sha256_hex env (livekit_api_secret (settings env)) data in
   ret (data +:+ ":" +:+ signature))%py.

(** [str(uuid.uuid4())] *)
Definition draw_uuid (env : Env) : M State string :=
  fun st => (Ok (uuid4 env (uuid_draws (world st))), set_world (tick_uuid (world st)) st).

Definition session_started_message (env : Env) (session_id room token : string) : value :=
  VDict [("action", VStr "session_started");
         ("session_id", VStr session_id);
         ("status", VStr "success");
         ("message", VStr "Session started successfully");
         ("livekit", VDict [("room_name", VStr room);
                            ("access_token", VStr token);
                            ("url", VStr (livekit_url (settings env)))])].

Definition handle_start_session (env : Env) (data : pydict) : M State unit :=
  try_except
    (start_message <- in_world (StartSessionMessage_new env data) ;;
     session_id <-
       (if str_truthy (ssm_session_id start_message)
        then ret (default "" (ssm_session_id start_message))
        else draw_uuid env) ;;
     let user_id := ssm_user_id start_message in
     let room := livekit_room_prefix (settings env) +:+ "-" +:+ session_id in
     token <- in_world (create_access_token env room user_id) ;;
     c0 <- call (initialize env) (GeminiLiveConnector_new env) ;;
     c1 <- call (start_session env session_id user_id (ssm_config start_message)) (snd c0) ;;
     started <- in_world (now env) ;;
     modify (register session_id (snd c1)
       {| room_name := room; rs_user_id := user_id; access_token := token;
          rs_start_time := started; rs_status := "active" |}) ;;;
     send_json (session_started_message env session_id room token))%py
    (fun e =>
       send_json (error_message "SESSION_START_ERROR"
                    ("Failed to start session: " +:+ exc_text e))).

(** The generator runs on the connector registered under [key]; what it
    has done to the connector is in the registry as soon as it is done. *)
Definition store (key : string) (s : ConnState) (st : State) : State :=
  {| active_connections := active_connections st;
     session_connectors := <[key := fst s]> (session_connectors st);
     room_sessions := room_sessions st; world := snd s; sent := sent st |}.

(** [async for item in gen: body(item)]. An exception of the body leaves
    the loop with the generator suspended at its [yield]. *)
Fixpoint async_for (key : string) (body : pydict -> M State unit)
    (gen : AsyncGen) (st : State) : result unit * State :=
  match gen with
  | StopAsyncIteration s => (Ok tt, store key s st)
  | Yield item s resume =>
      match body item (store key s st) with
      | (Ok _, st') => async_for key body (resume (fst s, world st')) st'
      | (Raise e, st') => (Raise e, st')
      end
  end.

Definition audio_body (env : Env) (session_id : string) (response : pydict)
    : M State unit :=
  (ty <- lift_result (subscript "type" response) ;;
   if py_eq_str (Some ty) "text_response" then
     content <- lift_result (subscript "content" response) ;;
     text_message <- in_world (TextResponseMessage_dict env session_id content) ;;
     send_json text_message
   else if py_eq_str (Some ty) "audio_response" then
     audio_message <- in_world (AudioOutputMessage_dict env session_id "") ;;
     send_json audio_message
   else if py_eq_str (Some ty) "error" then
     send_json (error_message "AUDIO_PROCESSING_ERROR"
                  "Audio processing failed, please try again")
   else ret tt)%py.

Definition session_not_found (session_id : string) : value :=
  error_message "SESSION_NOT_FOUND" ("Session " +:+ session_id +:+ " not found").

Definition handle_audio_input (env : Env) (data : pydict) : M State unit :=
  try_except
    (audio_message <- in_world (AudioInputMessage_new env data) ;;
     let session_id := aim_session_id audio_message in
     st <- get ;;
     match session_connectors st !! session_id with
     | None => send_json (session_not_found session_id)
     | Some connector =>
         try_except
           (fun st' =>
              async_for session_id (audio_body env session_id)
                (process_audio_input env (aim_data audio_message) session_id
                   (connector, world st')) st')
           (fun processing_error =>
              send_json (error_message "CRITICAL_AUDIO_ERROR"
                           "Audio processing unavailable, please restart session"))
     end)%py
    (fun e =>
       send_json (error_message "AUDIO_PROCESSING_ERROR"
                    ("Failed to process audio: " +:+ exc_text e))).

Definition screen_body (env : Env) (session_id : string) (response : pydict)
    : M State unit :=
  (ty <- lift_result (subscript "type" response) ;;
   if py_eq_str (Some ty) "text_response" then
     content <- lift_result (subscript "content" response) ;;
     text_message <- in_world (TextResponseMessage_dict env session_id content) ;;
     send_json text_message
   else if py_eq_str (Some ty) "error" then
     send_json (error_message "SCREEN_SHARE_ERROR"
                  "Screen analysis failed, please try again")
   else ret tt)%py.

Definition handle_screen_share_frame (env : Env) (data : pydict) : M State unit :=
  try_except
    (screen_message <- in_world (ScreenShareFrameMessage_new env data) ;;
     let session_id := sfm_session_id screen_message in
     st <- get ;;
     match session_connectors st !! session_id with
     | None => send_json (session_not_found session_id)
     | Some connector =>
         try_except
           (fun st' =>
              async_for session_id (screen_body env session_id)
                (process_screen_share env (sfm_data screen_message) session_id
                   (connector, world st')) st')
           (fun processing_error =>
              send_json (error_message "CRITICAL_SCREEN_ERROR"
                           "Screen analysis unavailable, please restart session"))
     end)%py
    (fun e =>
       send_json (error_message "SCREEN_SHARE_ERROR"
                    ("Failed to process screen share: " +:+ exc_text e))).

(** [result.get(key, fallback)] *)
Definition get_or (key : string) (fallback : value) (result : value) : value :=
  match result with
  | VDict d => default fallback (dict_get key d)
  | _ => fallback
  end.

Definition session_ended_message (session_id : string) (duration : value) : value :=
  VDict [("action", VStr "session_ended");
         ("session_id", VStr session_id);
         ("status", VStr "success");
         ("message", VStr "Session ended successfully");
         ("duration", duration)].

Definition handle_end_session (env : Env) (data : pydict) : M State unit :=
  try_except
    (end_message <- in_world (EndSessionMessage_new env data) ;;
     let session_id := esm_session_id end_message in
     st <- get ;;
     match session_connectors st !! session_id with
     | None => send_json (session_not_found session_id)
     | Some connector =>
         ended <- call (end_session env session_id) connector ;;
         modify (fun st' => store session_id (snd ended, world st') st') ;;;
         modify (disconnect session_id) ;;;
         send_json (session_ended_message session_id
                      (get_or "duration" (VInt 0) (fst ended)))
     end)%py
    (fun e =>
       send_json (error_message "SESSION_END_ERROR"
                    ("Failed to end session: " +:+ exc_text e))).

(** One text frame of [websocket.iter_text()], seen through
    [json.loads]:
    - [Json data], a text it decodes to [data];
    - [Malformed], a text that is not JSON and at which it raises
      [JSONDecodeError];
    - [TooDeep closed], a text that opens more nested arrays or objects
      than the recursion limit of the interpreter allows, and closes them
      all (a JSON text) or not (not one): it raises [RecursionError]
      before it has seen the end;
    - [HugeInteger], a JSON text with an integer literal of more digits
      than [int] converts: it raises [ValueError]. *)
Inductive frame :=
| Malformed
| TooDeep (closed : bool)
| HugeInteger
| Json (data : value).

Definition json_loads (message : frame) : result value :=
  match message with
  | Malformed => Raise (Exn JSONDecodeError "Expecting value")
  | TooDeep _ =>
      Raise (Exn RecursionError
               "maximum recursion depth exceeded while decoding a JSON array from a unicode string")
  | HugeInteger =>
      Raise (Exn ValueError "Exceeds the limit (4300 digits) for integer string conversion")
  | Json data => Ok data
  end.

(** [data.get] exists on a dict only. *)
Definition as_dict (data : value) : result pydict :=
  match data with
  | VDict d => Ok d
  | _ => Raise (Exn AttributeError "object has no attribute 'get'")
  end.

(** The body of the message loop of [livekit_endpoint]. *)
Definition on_message (env : Env) (message : frame) : M State unit :=
  try_except
    (data <- lift_result (json_loads message) ;;
     d <- lift_result (as_dict data) ;;
     let action := dict_get "action" d in
     if py_eq_str action ActionType.START_SESSION then handle_start_session env d
     else if py_eq_str action ActionType.AUDIO_INPUT then handle_audio_input env d
     else if py_eq_str action ActionType.SCREEN_SHARE_FRAME then handle_screen_share_frame env d
     else if py_eq_str action ActionType.END_SESSION then handle_end_session env d
     else send_json (error_message "INVALID_ACTION"
                       ("Unknown action: " +:+ py_str env (default VNone action))))%py
    (fun e =>
       match exc_cls e with
       | JSONDecodeError =>
           send_json (error_message "INVALID_JSON" "Invalid JSON format")
       | _ =>
           send_json (error_message "INTERNAL_ERROR" "Internal server error")
       end).

(** [livekit_endpoint]: the frames are handled in the order received; an
    exception that leaves the loop body ends the loop. When the frames
    run out nothing is cleaned up, [session_id] being [None] there. *)
Fixpoint livekit_endpoint (env : Env) (messages : list frame) : M State unit :=
  match messages with
  | [] => ret tt
  | message :: rest =>
      fun st =>
        match on_message env message st with
        | (Ok _, st') => livekit_endpoint env rest st'
        | (Raise e, st') => (Ok tt, st')
        end
  end.

Definition run (env : Env) (messages : list frame) (st : State) : State :=
  snd (livekit_endpoint env messages st).

Definition initial_world : World :=
  {| clock_reads := 0; ai_calls := 0; uuid_draws := 0; model_inits := 0 |}.

Definition initial_state : State :=
  {| active_connections := ∅; session_connectors := ∅; room_sessions := ∅;
     world := initial_world; sent := [] |}.

(** ** A concrete environment and a few frames *)

Module Demo.
Definition demo_settings : Settings :=
  {| livekit_api_key := "key"; livekit_api_secret := "secret";
     livekit_room_prefix := "voice-ai"; livekit_url := "ws://localhost:7880";
     gemini_model := "gemini-1.5-flash" |}.

(** Readings one second apart, starting at 1000. *)
Definition seconds (n : nat) : Q := inject_Z (1000 + Z.of_nat n).

Definition env_with (clk : nat -> Q) (ai : nat -> ai_outcome) : Env :=
  {| settings := demo_settings;
     time_time := clk;
     generate_content := ai;
     GenerativeModel := fun _ => None;
     uuid4 := fun n => "uuid-" +:+ pretty n;
     hmac_sha256_hex := fun k m => "hmac(" +:+ k +:+ "," +:+ m +:+ ")";
     b64decode_error := fun _ => None;
     pydantic_coerces := fun _ _ => true;
     validation_error_text := fun model _ => "validation error for " +:+ model;
     repr_text := fun _ => "<object>";
     isoformat := fun _ => "<isoformat>" |}.

(** The model greets, then answers with a text. *)
Definition talkative : Env :=
  env_with seconds (fun n => match n with
                             | O => AIResponse "Hi, I am Cloudy."
                             | _ => AIResponse "Open the S3 console."
                             end).




(** The model greets, then raises. *)
Definition flaky : Env :=
  env_with seconds (fun n => match n with
                             | O => AIResponse "Hi, I am Cloudy."
                             | _ => AIRaises "503 unavailable"
                             end).

(** The model greets, then returns responses without text. *)
Definition mute : Env :=
  env_with seconds (fun n => match n with
                             | O => AIResponse "Hi, I am Cloudy."
                             | 1 => AINone
                             | _ => AIResponse ""
                             end).

Definition start_data (sid uid : string) : pydict :=
  [("action", VStr "start_session"); ("user_id", VStr uid); ("session_id", VStr sid)].
Definition audio_data (sid : string) : pydict :=
  [("action", VStr "audio_input"); ("session_id", VStr sid); ("data", VStr "UklGRg==")].
Definition screen_data (sid : string) : pydict :=
  [("action", VStr "screen_share_frame"); ("session_id", VStr sid); ("data", VStr "iVBORw==")].
Definition end_data (sid : string) : pydict :=
  [("action", VStr "end_session"); ("session_id", VStr sid)].

(** The state after user [u1] has started session [s1]. *)
Definition started (env : Env) : State :=
  run env [Json (VDict (start_data "s1" "u1"))] initial_state.
End Demo.

(** ** Vocabulary of the theorems *)

(** The state after one more message has gone out, and nothing else. *)
Definition after_send (doc : value) (st : State) : State :=
  {| active_connections := active_connections st;
     session_connectors := session_connectors st;
     room_sessions := room_sessions st; world := world st;
     sent := sent st ++ [doc] |}.

(** The world, and the state, once the message of a frame has been
    built from the dict [d]: a dict without a [timestamp] has cost one
    reading of the clock. *)
Definition stamped (d : pydict) (w : World) : World :=
  match dict_get "timestamp" d with
  | None => tick w
  | Some _ => w
  end.
Arguments stamped : simpl never.

Definition received (d : pydict) (st : State) : State :=
  set_world (stamped d (world st)) st.

Definition message_field (key : string) (doc : value) : option value :=
  match doc with
  | VDict d => dict_get key d
  | _ => None
  end.

(** [doc] is an error message carrying [code]. *)
Definition is_error (code : string) (doc : value) : Prop :=
  message_field "action" doc = Some (VStr "error") ∧
  message_field "code" doc = Some (VStr code).

Definition critical_audio : value :=
  error_message "CRITICAL_AUDIO_ERROR" "Audio processing unavailable, please restart session".
Definition audio_failed : value :=
  error_message "AUDIO_PROCESSING_ERROR" "Audio processing failed, please try again".
Definition critical_screen : value :=
  error_message "CRITICAL_SCREEN_ERROR" "Screen analysis unavailable, please restart session".
Definition screen_failed : value :=
  error_message "SCREEN_SHARE_ERROR" "Screen analysis failed, please try again".
Definition start_failed (text : string) : value :=
  error_message "SESSION_START_ERROR" ("Failed to start session: " +:+ text).

(** A media submission: an audio chunk or a screen frame. *)
Inductive submission := Audio | Screen.

Definition handle_submission (kind : submission) : Env -> pydict -> M State unit :=
  match kind with
  | Audio => handle_audio_input
  | Screen => handle_screen_share_frame
  end.

Definition processing (kind : submission) : Env -> string -> string -> ConnState -> AsyncGen :=
  match kind with
  | Audio => process_audio_input
  | Screen => process_screen_share
  end.

Definition loop_body (kind : submission) : Env -> string -> pydict -> M State unit :=
  match kind with
  | Audio => audio_body
  | Screen => screen_body
  end.

(** The session identifier and payload of a submission that validates. *)
Definition submitted (env : Env) (kind : submission) (d : pydict)
    : option (string * string) :=
  match kind with
  | Audio =>
      match AudioInputMessage_validate env d with
      | Ok m => Some (aim_session_id m, aim_data m)
      | Raise _ => None
      end
  | Screen =>
      match ScreenShareFrameMessage_validate env d with
      | Ok m => Some (sfm_session_id m, sfm_data m)
      | Raise _ => None
      end
  end.

(** Whether the payload reaches the model: only audio is decoded first. *)
Definition decodes (env : Env) (kind : submission) (payload : string) : Prop :=
  match kind with
  | Audio => b64decode_error env payload = None
  | Screen => True
  end.

(** The session [sid] is registered with connector [c], connected to an
    initialised model, and active. *)
Definition active_session (st : State) (sid : string) (c : GeminiLiveConnector) : Prop :=
  session_connectors st !! sid = Some c ∧ genai_model c = true ∧
  is_connected c = true ∧ is_session_active c sid = true.

(** A response that carries no text. *)
Definition no_text (o : ai_outcome) : Prop := o = AINone ∨ o = AIResponse "".

(** The identifier a start command ends up with, and the world after it
    has been chosen. *)
Definition chosen_id (env : Env) (w : World) (m : StartSessionMessage) : string :=
  if str_truthy (ssm_session_id m) then default "" (ssm_session_id m)
  else uuid4 env (uuid_draws w).

Definition after_id (w : World) (m : StartSessionMessage) : World :=
  if str_truthy (ssm_session_id m) then w else tick_uuid w.

(** The session record [start_session] installs, before any greeting. *)
Definition fresh_session (env : Env) (session_id user_id : string)
    (config : option pydict) (w : World) : Session :=
  {| s_id := session_id; s_user_id := user_id; s_history := [];
     s_config := default [] config;
     s_start_time := time_time env (S (clock_reads w));
     s_status := "active"; s_end_time := None |}.

Definition greeting_entry (text session_id : string) (t : Q) : pydict :=
  [("type", VStr "assistant_greeting"); ("content", VStr text);
   ("timestamp", VFloat t); ("session_id", VStr session_id)].

(** The session a connector holds once [start_session] has returned, the
    model having answered [o] at world [w]. *)
Definition greeted_session (env : Env) (session_id user_id : string)
    (config : option pydict) (w : World) (o : ai_outcome) : Session :=
  match o with
  | AIResponse text =>
      if String.eqb text "" then fresh_session env session_id user_id config w
      else push_history
             (greeting_entry text session_id (time_time env (S (S (clock_reads w)))))
             (fresh_session env session_id user_id config w)
  | _ => fresh_session env session_id user_id config w
  end.

(** The greeting [start_session] returns for a model outcome. *)
Definition greeting_for (o : ai_outcome) : string :=
  match o with
  | AIResponse text => if String.eqb text "" then default_greeting else text
  | _ => default_greeting
  end.

Definition raises (o : ai_outcome) : Prop := ∃ text, o = AIRaises text.

(** The world in which [start_session], called at [w], returns or raises. *)
Definition greeted_world (w : World) (o : ai_outcome) : World :=
  match o with
  | AIResponse text =>
      if String.eqb text "" then tick_ai (tick (tick w))
      else tick (tick_ai (tick (tick w)))
  | _ => tick_ai (tick (tick w))
  end.

Definition started_connector (env : Env) (session_id user_id : string)
    (config : option pydict) (w : World) (o : ai_outcome) : GeminiLiveConnector :=
  {| model_name := gemini_model (settings env); genai_model := true;
     session := Some (greeted_session env session_id user_id config w o);
     is_connected := true |}.

(** What a token issued in world [w] embeds. *)
Definition expiry_at (env : Env) (w : World) : Z :=
  (py_int (time_time env (clock_reads w)) + 3600)%Z.
Definition signature (env : Env) (data : string) : string :=
  hmac_sha256_hex env (livekit_api_secret (settings env)) data.
Definition token_at (env : Env) (room ident : string) (w : World) : string :=
  token_data env ident room (expiry_at env w) +:+ ":"
    +:+ signature env (token_data env ident room (expiry_at env w)).

Definition room_of (env : Env) (session_id : string) : string :=
  livekit_room_prefix (settings env) +:+ "-" +:+ session_id.

(** The room record of a session started from world [w]: the token is
    issued first, at [w]; the start time is read last. *)
Definition room_record (env : Env) (session_id user_id : string)
    (w : World) (o : ai_outcome) : RoomSession :=
  {| room_name := room_of env session_id; rs_user_id := user_id;
     access_token := token_at env (room_of env session_id) user_id w;
     rs_start_time :=
       time_time env (clock_reads (greeted_world (tick_init (tick w)) o));
     rs_status := "active" |}.

(** The four commands of the protocol, their action strings and their
    handlers. *)
Inductive command := StartSession | AudioInput | ScreenShareFrame | EndSession.

Definition action_of (cmd : command) : string :=
  match cmd with
  | StartSession => ActionType.START_SESSION
  | AudioInput => ActionType.AUDIO_INPUT
  | ScreenShareFrame => ActionType.SCREEN_SHARE_FRAME
  | EndSession => ActionType.END_SESSION
  end.

Definition handler_of (cmd : command) : Env -> pydict -> M State unit :=
  match cmd with
  | StartSession => handle_start_session
  | AudioInput => handle_audio_input
  | ScreenShareFrame => handle_screen_share_frame
  | EndSession => handle_end_session
  end.

(** The code of the error message a frame is answered with when it is
    not handed to a handler. *)
Definition frame_refusal (message : frame) : string :=
  match message with
  | Malformed => "INVALID_JSON"
  | TooDeep _ | HugeInteger => "INTERNAL_ERROR"
  | Json (VDict _) => "INVALID_ACTION"
  | Json _ => "INTERNAL_ERROR"
  end.


(** Whether a frame is dispatched to [handle_start_session]. *)
Definition starts_session (message : frame) : bool :=
  match message with
  | Json (VDict d) => py_eq_str (dict_get "action" d) ActionType.START_SESSION
  | _ => false
  end.

(** The [async for] loop of a submission ends because the generator is
    exhausted, not because the loop body raised. *)
Definition drained (env : Env) (kind : submission) (sid payload : string)
    (c : GeminiLiveConnector) (st : State) : Prop :=
  fst (async_for sid (loop_body kind env sid)
         (processing kind env payload sid (c, world st)) st) = Ok tt.

(** The wall clock never runs backwards. *)
Definition monotone_clock (env : Env) : Prop :=
  ∀ i j : nat, (i ≤ j)%nat → (time_time env i <= time_time env j)%Q.

(** The session after an exchange has been recorded: the input first,
    then the assistant's text. *)
Definition recorded (env : Env) (input_type text sid : string) (w : World)
    (s : Session) : Session :=
  push_history
    [("type", VStr "assistant_text"); ("content", VStr text);
     ("timestamp", VFloat (time_time env (S (clock_reads w))));
     ("session_id", VStr sid)]
    (push_history
       [("type", VStr input_type);
        ("timestamp", VFloat (time_time env (clock_reads w)));
        ("session_id", VStr sid)] s).

Definition input_type (kind : submission) : string :=
  match kind with
  | Audio => "user_audio"
  | Screen => "screen_share"
  end.

Definition try_block (kind : submission) : Env -> string -> string -> M ConnState (option string) :=
  match kind with
  | Audio => audio_try
  | Screen => screen_try
  end.

(** What the model call of a processing generator comes to, on a
    connected connector with a session and a model. *)
Definition model_step (env : Env) (kind : submission) (sid : string)
    (c : GeminiLiveConnector) (s : Session) (w : World)
    : result (option string) * ConnState :=
  match generate_content env (ai_calls w) with
  | AIRaises text => (Raise (Exn ApiError text), (c, tick_ai w))
  | AINone => (Ok None, (c, tick_ai w))
  | AIResponse text =>
      if String.eqb text "" then (Ok None, (c, tick_ai w))
      else (Ok (Some text),
            (set_session (Some (recorded env (input_type kind) text sid w s)) true c,
             tick (tick (tick_ai w))))
  end.

Definition critical (kind : submission) : value :=
  match kind with
  | Audio => critical_audio
  | Screen => critical_screen
  end.

Definition failed (kind : submission) : value :=
  match kind with
  | Audio => audio_failed
  | Screen => screen_failed
  end.

(** What the client is sent for one submission to an active session,
    by what the model does with it. *)
Definition reply (kind : submission) (o : ai_outcome) : list value :=
  match o with
  | AIRaises _ => [failed kind]
  | AINone => []
  | AIResponse text => if String.eqb text "" then [] else [critical kind]
  end.

(** What the client is sent for [n] submissions one after the other, the
    model having been called [k] times before. *)
Fixpoint replies (env : Env) (kind : submission) (k n : nat) : list value :=
  match n with
  | O => []
  | S n' => reply kind (generate_content env k) ++ replies env kind (S k) n'
  end.

(** The dict of an audio command for the session [sid], with a payload
    that is base64. *)
Definition audio_for (env : Env) (sid : string) (d : pydict) : Prop :=
  dict_get "action" d = Some (VStr ActionType.AUDIO_INPUT)
  ∧ ∃ payload, submitted env Audio d = Some (sid, payload)
               ∧ b64decode_error env payload = None.



Definition end_failed (text : string) : value :=
  error_message "SESSION_END_ERROR" ("Failed to end session: " +:+ text).

(** A registered connector as the handlers leave it: a model, a
    connection, and an active session under the identifier it is registered
    with, started at a reading of the clock already taken. *)
Definition sound_connector (env : Env) (w : World) (sid : string)
    (c : GeminiLiveConnector) : Prop :=
  genai_model c = true ∧ is_connected c = true ∧
  ∃ s, session c = Some s ∧ s_id s = sid ∧ s_status s = "active" ∧
       ∃ i : nat, (i < clock_reads w)%nat ∧ s_start_time s = time_time env i.

Definition sound_registry (env : Env) (st : State) : Prop :=
  ∀ sid c, session_connectors st !! sid = Some c →
           sound_connector env (world st) sid c.

(** Unfolding of the monadic combinators. *)
Ltac py_unfold :=
  unfold try_except, bind, lift_result, get, modify, ret, raise, send_json,
    send_text, in_world, call, json_dumps.

(** The error code of a message, or else its action. *)
Definition label (doc : value) : string :=
  match message_field "code" doc, message_field "action" doc with
  | Some (VStr code), _ => code
  | _, Some (VStr action) => action
  | _, _ => ""
  end.

(** ** The claims that do not hold as worded *)






(** ** Further vocabulary: what one frame can do *)

(** No counter of the world has gone back. *)
Definition world_le (w w' : World) : Prop :=
  (clock_reads w ≤ clock_reads w')%nat ∧ (ai_calls w ≤ ai_calls w')%nat ∧
  (uuid_draws w ≤ uuid_draws w')%nat ∧ (model_inits w ≤ model_inits w')%nat.

(** The session is the one it was, with a history that has only grown. *)
Definition session_extends (s s' : Session) : Prop :=
  s_id s' = s_id s ∧ s_user_id s' = s_user_id s ∧ s_config s' = s_config s ∧
  s_start_time s' = s_start_time s ∧ s_status s' = s_status s ∧
  s_end_time s' = s_end_time s ∧ s_history s `prefix_of` s_history s'.

Definition connector_extends (c c' : GeminiLiveConnector) : Prop :=
  model_name c' = model_name c ∧ genai_model c' = genai_model c ∧
  is_connected c' = is_connected c ∧
  match session c, session c' with
  | Some s, Some s' => session_extends s s'
  | None, None => True
  | _, _ => False
  end.

(** The identifier a frame names, if its payload validates: the one a
    start command brings or draws, the [session_id] of the other
    commands. *)
Definition named_id (env : Env) (st : State) (message : frame) : option string :=
  match message with
  | Json (VDict d) =>
      let action := dict_get "action" d in
      if py_eq_str action ActionType.START_SESSION then
        match StartSessionMessage_validate env d with
        | Ok m => Some (chosen_id env (world st) m)
        | Raise _ => None
        end
      else if py_eq_str action ActionType.AUDIO_INPUT then fst <$> submitted env Audio d
      else if py_eq_str action ActionType.SCREEN_SHARE_FRAME then fst <$> submitted env Screen d
      else if py_eq_str action ActionType.END_SESSION then
        match EndSessionMessage_validate env d with
        | Ok m => Some (esm_session_id m)
        | Raise _ => None
        end
      else None
  | _ => None
  end.


(** The world in which a handler goes on once its message has been
    built: the clock has been read once at most, and nothing else has
    moved. *)
Definition arrival (w w0 : World) : Prop :=
  ai_calls w0 = ai_calls w ∧ uuid_draws w0 = uuid_draws w ∧
  model_inits w0 = model_inits w ∧
  (clock_reads w ≤ clock_reads w0 ≤ S (clock_reads w))%nat.

(** The shapes of the state after one frame. *)
Inductive effect (env : Env) (st : State) (message : frame) : State -> Prop :=
| effect_reply (doc : value) (w : World) :
    world_le (world st) w →
    (ai_calls w ≤ S (ai_calls (world st)))%nat →
    effect env st message (after_send doc (set_world w st))
| effect_silence (w0 : World) :
    arrival (world st) w0 →
    effect env st message (set_world (tick_ai w0) st)
| effect_record (kind : submission) (sid text : string)
    (c : GeminiLiveConnector) (s : Session) (w0 : World) :
    arrival (world st) w0 →
    starts_session message = false →
    named_id env st message = Some sid →
    session_connectors st !! sid = Some c →
    session c = Some s →
    is_connected c = true →
    effect env st message
      (after_send (critical kind)
         (store sid
            (set_session
               (Some (recorded env (input_type kind) text sid w0 s)) true c,
             tick (tick (tick (tick (tick_ai w0)))))
            st))
| effect_start (m : StartSessionMessage) (doc : value) (w0 : World) :
    arrival (world st) w0 →
    starts_session message = true →
    named_id env st message = Some (chosen_id env (world st) m) →
    ¬ raises (generate_content env (ai_calls (world st))) →
    effect env st message
      (after_send doc
         (register (chosen_id env (world st) m)
            (started_connector env (chosen_id env (world st) m) (ssm_user_id m)
               (ssm_config m) (tick_init (tick (after_id w0 m)))
               (generate_content env (ai_calls (world st))))
            (room_record env (chosen_id env (world st) m) (ssm_user_id m)
               (after_id w0 m) (generate_content env (ai_calls (world st))))
            (set_world
               (tick (greeted_world (tick_init (tick (after_id w0 m)))
                        (generate_content env (ai_calls (world st)))))
               st)))
| effect_end (sid : string) (doc : value) (c : GeminiLiveConnector) (w0 : World) :
    arrival (world st) w0 →
    starts_session message = false →
    named_id env st message = Some sid →
    session_connectors st !! sid = Some c →
    effect env st message
      (after_send doc (disconnect sid (set_world (tick w0) st))).

(** ** The rest of connectors/gemini_live.py *)

(** [float(v)]; [parse] stands for [float] on a string, which returns
    the number read or raises its [ValueError]. *)
Definition py_float (parse : string -> result Q) (v : value) : result value :=
  match v with
  | VFloat q => Ok (VFloat q)
  | VInt z => Ok (VFloat (inject_Z z))
  | VBool b => Ok (VFloat (if b then 1 else 0))
  | VStr s =>
      match parse s with
      | Ok q => Ok (VFloat q)
      | Raise e => Raise e
      end
  | _ => Raise (Exn TypeError "float() argument must be a string or a real number")
  end.

(** [d[k] = v] on a dict in insertion order, whatever its values are:
    the value of a key that is there is replaced in place, a new key goes
    to the end. *)
Fixpoint setitem {A : Type} (k : string) (v : A) (d : list (string * A))
    : list (string * A) :=
  match d with
  | [] => [(k, v)]
  | item :: rest =>
      if String.eqb (fst item) k then (fst item, v) :: rest
      else item :: setitem k v rest
  end.

(** [d.get(k)] on such a dict. *)
Fixpoint getitem {A : Type} (k : string) (d : list (string * A)) : option A :=
  match d with
  | [] => None
  | item :: rest => if String.eqb (fst item) k then Some (snd item) else getitem k rest
  end.

(** One turn of the loop of [get_session_history]. *)
Definition serialized_entry (parse : string -> result Q) (entry : pydict) : result pydict :=
  match dict_get "timestamp" entry with
  | Some t =>
      match py_float parse t with
      | Ok t' => Ok (setitem "timestamp" t' entry)
      | Raise e => Raise e
      end
  | None => Ok entry
  end.

Fixpoint serialized_entries (parse : string -> result Q) (entries : list pydict)
    : result (list pydict) :=
  match entries with
  | [] => Ok []
  | entry :: rest =>
      match serialized_entry parse entry with
      | Ok entry' =>
          match serialized_entries parse rest with
          | Ok rest' => Ok (entry' :: rest')
          | Raise e => Raise e
          end
      | Raise e => Raise e
      end
  end.

Definition get_session_history (parse : string -> result Q)
    (self : GeminiLiveConnector) (session_id : string) : result (list pydict) :=
  match session self with
  | Some s =>
      if String.eqb (s_id s) session_id then serialized_entries parse (s_history s)
      else Ok []
  | None => Ok []
  end.

(** ** The rest of api/livekit_routes.py *)

(** What a route hands back: a body, or an [HTTPException]. *)
Inductive http (A : Type) : Type :=
| Http200 (body : A)
| HTTPException (status_code : Z) (detail : string).
Arguments Http200 {A} body.
Arguments HTTPException {A} status_code detail.

Module Rest.
(** [GET /api/v1/livekit/sessions/{session_id}] *)
Definition get_session_info (env : Env) (session_id : string) (st : State) : http value :=
  match room_sessions st !! session_id with
  | None => HTTPException 404 "Session not found"
  | Some session_info =>
      Http200 (VDict [("session_id", VStr session_id);
                      ("room_name", VStr (room_name session_info));
                      ("user_id", VStr (rs_user_id session_info));
                      ("status", VStr (rs_status session_info));
                      ("start_time", VStr (isoformat env (rs_start_time session_info)))])
  end.
End Rest.

(** [manager.send_message]: what is written to a websocket of the
    manager goes to the log. *)
Definition send_message (session_id : string) (message : value) : M State unit :=
  (st <- get ;;
   if bool_decide (session_id ∈ active_connections st)
   then try_except (send_json message) (fun e => modify (disconnect session_id))
   else ret tt)%py.

(** [ErrorMessage(action=..., session_id=..., code=..., message=...,
    details=...).dict()] *)
Definition ErrorMessage_dict (env : Env) (session_id code message : string)
    (details : option pydict) : M World value :=
  (t <- now env ;;
   ret (VDict [("action", VStr ActionType.ERROR);
               ("timestamp", VDatetime t);
               ("session_id", VStr session_id);
               ("user_id", VNone);
               ("code", VStr code);
               ("message", VStr message);
               ("details", match details with Some d => VDict d | None => VNone end)]))%py.

(** [manager.send_error] *)
Definition send_error (env : Env) (session_id code message : string)
    (details : option pydict) : M State unit :=
  (error <- in_world (ErrorMessage_dict env session_id code message details) ;;
   send_message session_id error)%py.

(** ** Vocabulary of the further theorems *)





(** Every registered connector has its room record, every room record
    is the one of its connector, and no websocket is kept. *)
Definition paired (env : Env) (st : State) : Prop :=
  active_connections st = ∅
  ∧ (∀ sid c, session_connectors st !! sid = Some c →
              is_Some (room_sessions st !! sid))
  ∧ (∀ sid info, room_sessions st !! sid = Some info →
       room_name info = room_of env sid
       ∧ rs_status info = "active"
       ∧ (∃ w, access_token info = token_at env (room_of env sid) (rs_user_id info) w)
       ∧ ∃ c s, session_connectors st !! sid = Some c ∧ session c = Some s
                ∧ s_user_id s = rs_user_id info).

(** The records of a list carry clock readings taken one after the
    other, from reading [lo] on and before reading [hi]. *)
Inductive timed (env : Env) : nat -> list pydict -> nat -> Prop :=
| timed_nil (lo : nat) : timed env lo [] lo
| timed_cons (lo i hi : nat) (entry : pydict) (rest : list pydict) :
    (lo ≤ i)%nat →
    dict_get "timestamp" entry = Some (VFloat (time_time env i)) →
    timed env (S i) rest hi →
    timed env lo (entry :: rest) hi.

(** The session started at a reading of the clock, its history is timed
    after it, and all of that lies in the past of [w]. *)
Definition timed_session (env : Env) (w : World) (s : Session) : Prop :=
  ∃ first hi,
    s_start_time s = time_time env first
    ∧ timed env (S first) (s_history s) hi
    ∧ (hi ≤ clock_reads w)%nat.

Definition timed_registry (env : Env) (st : State) : Prop :=
  ∀ sid c s, session_connectors st !! sid = Some c → session c = Some s →
             timed_session env (world st) s.


(** The state after two users have started a session each. *)
Definition two_sessions (env : Env) : State :=
  run env [Json (VDict (Demo.start_data "s1" "u1"));
           Json (VDict (Demo.start_data "s2" "u2"))] initial_state.

(** The result dict of [end_session]. *)
Definition end_result (session_id : string) (duration : Q) : value :=
  VDict [("status", VStr "success");
         ("session_id", VStr session_id);
         ("message", VStr "Session ended successfully");
         ("duration", VFloat duration)].

(** The session of a connector after [end_session] at reading [t]. *)
Definition ended (s : Session) (t : Q) : Session :=
  {| s_id := s_id s; s_user_id := s_user_id s; s_history := s_history s;
     s_config := s_config s; s_start_time := s_start_time s;
     s_status := "ended"; s_end_time := Some t |}.


(** ** core/integrated_service.py, with the parts of
    connectors/livekit_connector.py it calls *)

Module Integrated.

(** What the service takes from outside the repository, besides [Env]:
    [AccessToken.to_jwt] of the LiveKit SDK for a room and an identity, and
    [base64.b64encode]. *)
Record Extern := {
  to_jwt : string -> string -> result string;
  b64encode : string -> string;
}.

(** The fields of [LiveKitConnector] the service can reach. The class
    has no [set_callbacks], [join_room], [publish_audio] or
    [get_room_info]. *)
Record LiveKitConnector := {
  lk_gemini_connector : option GeminiLiveConnector;
  lk_room : bool;
  lk_is_connected : bool;
}.

Record Entry := {
  e_user_id : string;
  e_session_id : string;
  e_room_info : value;
  e_gemini_session : value;
  e_start_time : Q;
  e_status : string;
  e_end_time : option Q;
}.

(** A call of one of the callbacks handed to [set_callbacks]. *)
Inductive callback :=
| TextResponse (text : value) (confidence : Q)
| Error (text : value).

(** [IntegratedVoiceAIService]. The one [gemini_connector] serves every
    session. A callback that is set is taken to return; its calls are
    listed in [called]. *)
Record Service := {
  livekit_connector : LiveKitConnector;
  gemini_connector : GeminiLiveConnector;
  active_sessions : list (string * Entry);
  on_text_response : bool;
  on_error : bool;
  called : list callback;
}.

Abbreviation ServiceState := (Service * World)%type.

Definition set_gemini (c : GeminiLiveConnector) (svc : Service) : Service :=
  {| livekit_connector := livekit_connector svc; gemini_connector := c;
     active_sessions := active_sessions svc;
     on_text_response := on_text_response svc; on_error := on_error svc;
     called := called svc |}.

Definition set_sessions (d : list (string * Entry)) (svc : Service) : Service :=
  {| livekit_connector := livekit_connector svc;
     gemini_connector := gemini_connector svc; active_sessions := d;
     on_text_response := on_text_response svc; on_error := on_error svc;
     called := called svc |}.

Definition set_livekit (lk : LiveKitConnector) (svc : Service) : Service :=
  {| livekit_connector := lk; gemini_connector := gemini_connector svc;
     active_sessions := active_sessions svc;
     on_text_response := on_text_response svc; on_error := on_error svc;
     called := called svc |}.

Definition record_call (cb : callback) (svc : Service) : Service :=
  {| livekit_connector := livekit_connector svc;
     gemini_connector := gemini_connector svc;
     active_sessions := active_sessions svc;
     on_text_response := on_text_response svc; on_error := on_error svc;
     called := called svc ++ [cb] |}.

(** [IntegratedVoiceAIService()] *)
Definition new (env : Env) : Service :=
  {| livekit_connector :=
       {| lk_gemini_connector := None; lk_room := false; lk_is_connected := false |};
     gemini_connector := GeminiLiveConnector_new env;
     active_sessions := [];
     on_text_response := false; on_error := false; called := [] |}.

(** [set_callbacks] *)
Definition set_callbacks (text_response error : bool) (svc : Service) : Service :=
  {| livekit_connector := livekit_connector svc;
     gemini_connector := gemini_connector svc;
     active_sessions := active_sessions svc;
     on_text_response := text_response; on_error := error;
     called := called svc |}.

Definition time (env : Env) : M ServiceState Q :=
  fun s => let '(t, w) := read_clock env (snd s) in (Ok t, (fst s, w)).

(** A method of the shared Gemini connector; what it does to the
    connector stays done when it raises. *)
Definition on_gemini {A} (m : M ConnState A) : M ServiceState A :=
  fun s =>
    match m (gemini_connector (fst s), snd s) with
    | (r, (c, w)) => (r, (set_gemini c (fst s), w))
    end.

Definition no_attribute {A} (name : string) : M ServiceState A :=
  raise (Exn AttributeError
           ("'LiveKitConnector' object has no attribute '" +:+ name +:+ "'")).

(** [LiveKitConnector.initialize] *)
Definition livekit_initialize (env : Env) : M ServiceState unit :=
  fun s =>
    match initialize env (GeminiLiveConnector_new env, snd s) with
    | (Ok _, (c, w)) =>
        (Ok tt,
         (set_livekit {| lk_gemini_connector := Some c;
                         lk_room := lk_room (livekit_connector (fst s));
                         lk_is_connected := lk_is_connected (livekit_connector (fst s)) |}
            (fst s), w))
    | (Raise e, (c, w)) =>
        (Raise e,
         (set_livekit {| lk_gemini_connector := Some c;
                         lk_room := lk_room (livekit_connector (fst s));
                         lk_is_connected := lk_is_connected (livekit_connector (fst s)) |}
            (fst s), w))
    end.

(** [IntegratedVoiceAIService.initialize] *)
Definition initialize (env : Env) : M ServiceState unit :=
  (livekit_initialize env ;;;
   on_gemini (initialize env) ;;;
   no_attribute "set_callbacks")%py.

(** [LiveKitConnector.create_room] *)
Definition create_room (env : Env) (ext : Extern) (room user_id : string)
    : M ServiceState value :=
  (user_token <- lift_result (to_jwt ext room user_id) ;;
   ai_token <- lift_result (to_jwt ext room "ai-assistant") ;;
   created_at <- time env ;;
   ret (VDict [("room_name", VStr room);
               ("user_token", VStr user_token);
               ("ai_token", VStr ai_token);
               ("livekit_url", VStr (livekit_url (settings env)));
               ("created_at", VFloat created_at);
               ("user_id", VStr user_id)]))%py.

Definition create_session (env : Env) (ext : Extern) (user_id : string)
    (session_config : option pydict) : M ServiceState value :=
  (t <- time env ;;
   let session_id :=
     livekit_room_prefix (settings env) +:+ "-" +:+ user_id +:+ "-" +:+ pretty (py_int t) in
   room_info <- create_room env ext session_id user_id ;;
   gemini_session <- on_gemini (start_session env session_id user_id session_config) ;;
   started <- time env ;;
   modify (fun s =>
     (set_sessions
        (setitem session_id
           {| e_user_id := user_id; e_session_id := session_id;
              e_room_info := room_info; e_gemini_session := gemini_session;
              e_start_time := started; e_status := "active"; e_end_time := None |}
           (active_sessions (fst s)))
        (fst s), snd s)) ;;;
   ret (VDict [("status", VStr "success");
               ("session_id", VStr session_id);
               ("room_info", room_info);
               ("gemini_session", gemini_session)]))%py.

Definition not_found {A} (session_id : string) : M ServiceState A :=
  raise (Exn ValueError ("Session " +:+ session_id +:+ " not found")).

Definition set_status (status : string) (e : Entry) : Entry :=
  {| e_user_id := e_user_id e; e_session_id := e_session_id e;
     e_room_info := e_room_info e; e_gemini_session := e_gemini_session e;
     e_start_time := e_start_time e; e_status := status;
     e_end_time := e_end_time e |}.

Definition set_end_time (t : Q) (e : Entry) : Entry :=
  {| e_user_id := e_user_id e; e_session_id := e_session_id e;
     e_room_info := e_room_info e; e_gemini_session := e_gemini_session e;
     e_start_time := e_start_time e; e_status := e_status e;
     e_end_time := Some t |}.

(** [self.active_sessions[session_id][...] = ...] *)
Definition update_entry (session_id : string) (f : Entry -> Entry) : M ServiceState unit :=
  fun s =>
    match getitem session_id (active_sessions (fst s)) with
    | Some e =>
        (Ok tt, (set_sessions (setitem session_id (f e) (active_sessions (fst s)))
                   (fst s), snd s))
    | None => (Raise (Exn KeyError session_id), s)
    end.

(** [join_session]: the call of [livekit_connector.join_room], a method
    the class does not have, raises before the status is touched. *)
Definition join_session (session_id user_id token : string) : M ServiceState unit :=
  (s <- get ;;
   match getitem session_id (active_sessions (fst s)) with
   | None => not_found session_id
   | Some _ =>
       @no_attribute unit "join_room" ;;;
       update_entry session_id (set_status "connected")
   end)%py.

(** [_get_current_session_id]: the first session, in the order of
    creation, whose status is [connected]. *)
Fixpoint first_connected (d : list (string * Entry)) : option string :=
  match d with
  | [] => None
  | (session_id, e) :: d' =>
      if String.eqb (e_status e) "connected" then Some session_id
      else first_connected d'
  end.

Definition _get_current_session_id (svc : Service) : option string :=
  first_connected (active_sessions svc).

Definition call_back (enabled : Service -> bool) (cb : callback) : M ServiceState unit :=
  fun s => if enabled (fst s) then (Ok tt, (record_call cb (fst s), snd s)) else (Ok tt, s).

(** [async for response in self.gemini_connector.process_...]: the
    generator works on the shared connector. *)
Fixpoint service_for (body : pydict -> M ServiceState unit) (gen : AsyncGen)
    (s : ServiceState) : result unit * ServiceState :=
  match gen with
  | StopAsyncIteration s1 => (Ok tt, (set_gemini (fst s1) (fst s), snd s1))
  | Yield item s1 resume =>
      match body item (set_gemini (fst s1) (fst s), snd s1) with
      | (Ok _, s') => service_for body (resume (gemini_connector (fst s'), snd s')) s'
      | (Raise e, s') => (Raise e, s')
      end
  end.

Definition response_body (response : pydict) : M ServiceState unit :=
  (ty <- lift_result (subscript "type" response) ;;
   if py_eq_str (Some ty) "text_response" then
     content <- lift_result (subscript "content" response) ;;
     call_back on_text_response (TextResponse content 1)
   else if py_eq_str (Some ty) "error" then
     error <- lift_result (subscript "error" response) ;;
     call_back on_error (Error error)
   else ret tt)%py.

(** [_handle_audio_input] and [_handle_screen_share] *)
Definition handle_media (env : Env) (ext : Extern) (kind : submission)
    (data : string) : M ServiceState unit :=
  try_except
    (s <- get ;;
     match _get_current_session_id (fst s) with
     | Some session_id =>
         if String.eqb session_id "" then ret tt
         else
           fun s' =>
             service_for response_body
               (processing kind env (b64encode ext data) session_id
                  (gemini_connector (fst s'), snd s')) s'
     | None => ret tt
     end)%py
    (fun e => call_back on_error (Error (VStr (exc_text e)))).

Definition _handle_audio_input (env : Env) (ext : Extern) (audio_data format : string)
    : M ServiceState unit :=
  handle_media env ext Audio audio_data.

Definition _handle_screen_share (env : Env) (ext : Extern) (frame_data format : string)
    : M ServiceState unit :=
  handle_media env ext Screen frame_data.

(** [LiveKitConnector.disconnect] *)
Definition livekit_disconnect : M ServiceState unit :=
  fun s =>
    if lk_room (livekit_connector (fst s)) then
      (Ok tt,
       (set_livekit {| lk_gemini_connector := lk_gemini_connector (livekit_connector (fst s));
                       lk_room := false; lk_is_connected := false |} (fst s), snd s))
    else (Ok tt, s).

Definition end_session (env : Env) (session_id : string) : M ServiceState value :=
  (s <- get ;;
   match getitem session_id (active_sessions (fst s)) with
   | None => not_found session_id
   | Some _ =>
       gemini_result <- on_gemini (end_session env session_id) ;;
       livekit_disconnect ;;;
       update_entry session_id (set_status "ended") ;;;
       t <- time env ;;
       update_entry session_id (set_end_time t) ;;;
       ret (VDict [("status", VStr "success");
                   ("session_id", VStr session_id);
                   ("gemini_result", gemini_result)])
   end)%py.

Definition is_session_active (svc : Service) (session_id : string) : bool :=
  match getitem session_id (active_sessions svc) with
  | Some e => String.eqb (e_status e) "connected"
  | None => false
  end.

(** The loop of [cleanup] over [list(self.active_sessions.keys())]. *)
Fixpoint end_connected (env : Env) (keys : list string) : M ServiceState unit :=
  match keys with
  | [] => ret tt
  | session_id :: rest =>
      (s <- get ;;
       match getitem session_id (active_sessions (fst s)) with
       | Some e =>
           if String.eqb (e_status e) "connected"
           then (end_session env session_id ;;; end_connected env rest)
           else end_connected env rest
       | None => raise (Exn KeyError session_id)
       end)%py
  end.

Definition cleanup (env : Env) : M ServiceState unit :=
  try_except
    (s <- get ;;
     end_connected env (map fst (active_sessions (fst s))) ;;;
     livekit_disconnect)%py
    (fun e => ret tt).

(** What a user of the service can call, and a sequence of such calls;
    an exception ends a call, not the sequence. *)
Inductive operation :=
| Initialize
| SetCallbacks (text_response error : bool)
| CreateSession (user_id : string) (session_config : option pydict)
| JoinSession (session_id user_id token : string)
| AudioInput (audio_data format : string)
| ScreenShare (frame_data format : string)
| EndSession (session_id : string)
| Cleanup.

Definition perform (env : Env) (ext : Extern) (op : operation) (s : ServiceState)
    : ServiceState :=
  match op with
  | Initialize => snd (initialize env s)
  | SetCallbacks t e => (set_callbacks t e (fst s), snd s)
  | CreateSession user_id cfg => snd (create_session env ext user_id cfg s)
  | JoinSession session_id user_id token => snd (join_session session_id user_id token s)
  | AudioInput data format => snd (_handle_audio_input env ext data format s)
  | ScreenShare data format => snd (_handle_screen_share env ext data format s)
  | EndSession session_id => snd (end_session env session_id s)
  | Cleanup => snd (cleanup env s)
  end.

Definition perform_all (env : Env) (ext : Extern) (ops : list operation)
    (s : ServiceState) : ServiceState :=
  foldl (fun s op => perform env ext op s) s ops.

End Integrated.

(** The identifier [create_session] gives a session of [user_id] when the
    clock has been read as in [w]. *)
Definition created_id (env : Env) (user_id : string) (w : World) : string :=
  livekit_room_prefix (settings env) +:+ "-" +:+ user_id +:+ "-"
    +:+ pretty (py_int (time_time env (clock_reads w))).

(** No session of the service has the status [connected]. *)
Definition never_connected (svc : Integrated.Service) : Prop :=
  Forall (fun kv => String.eqb (Integrated.e_status (snd kv)) "connected" = false)
    (Integrated.active_sessions svc).

(** The method [m] keeps the property [P] of [active_sessions]. *)
Definition keeps {A} (P : list (string * Integrated.Entry) -> Prop)
    (m : M Integrated.ServiceState A) : Prop :=
  forall s, P (Integrated.active_sessions (fst s)) ->
            P (Integrated.active_sessions (fst (snd (m s)))).

(** A service whose Gemini connector alone has been initialised, as
    [initialize] leaves it. *)
Definition half_initialized (env : Env) : Integrated.ServiceState :=
  snd (Integrated.initialize env (Integrated.new env, initial_world)).

(** A LiveKit SDK that signs every token. *)
Definition signing : Integrated.Extern :=
  {| Integrated.to_jwt := fun room identity => Ok ("jwt(" +:+ room +:+ "," +:+ identity +:+ ")");
     Integrated.b64encode := fun data => data |}.


(** The connector of session [s1] of user [u1], started first on a new
    manager. *)
Definition first_connector (env : Env) : GeminiLiveConnector :=
  started_connector env "s1" "u1" (Some []) (tick_init (tick (tick initial_world)))
    (generate_content env 0).

(** The state after a start and a spoken question. *)
Definition asked (env : Env) : State :=
  run env [Json (VDict (Demo.start_data "s1" "u1"));
           Json (VDict (Demo.audio_data "s1"))] initial_state.

(** ** Building a message *)

Lemma construct_spec {A : Type} (validate : Env -> pydict -> result A) (env : Env)
    (d : pydict) (st : State) :
  in_world (construct validate env d) st = (validate env d, received d st).
Proof.
  unfold in_world, construct, default_timestamp, received, stamped, now, read_clock,
    bind, ret, lift_result.
  destruct (dict_get "timestamp" d); reflexivity.
Qed.

(** A handler that begins by building its message is the rest of the
    handler run on the outcome of the validation, one reading of the clock
    later if the dict has no [timestamp]. *)
Lemma built_first {A B : Type} (validate : Env -> pydict -> result A) (env : Env)
    (d : pydict) (k : A -> M State B) (h : exn -> M State B) (st : State) :
  try_except (bind (in_world (construct validate env d)) k) h st
    = try_except (bind (lift_result (validate env d)) k) h (received d st).
Proof. unfold try_except, bind. by rewrite construct_spec. Qed.

Lemma stamped_counters (d : pydict) (w : World) :
  ai_calls (stamped d w) = ai_calls w
  ∧ uuid_draws (stamped d w) = uuid_draws w
  ∧ model_inits (stamped d w) = model_inits w
  ∧ (clock_reads w ≤ clock_reads (stamped d w) ≤ S (clock_reads w))%nat.
Proof.
  unfold stamped. destruct (dict_get "timestamp" d); simpl; repeat split; lia.
Qed.

Lemma stamped_ai_calls (d : pydict) (w : World) : ai_calls (stamped d w) = ai_calls w.
Proof. apply stamped_counters. Qed.

Lemma stamped_uuid_draws (d : pydict) (w : World) :
  uuid_draws (stamped d w) = uuid_draws w.
Proof. apply stamped_counters. Qed.

Lemma stamped_model_inits (d : pydict) (w : World) :
  model_inits (stamped d w) = model_inits w.
Proof. apply stamped_counters. Qed.

Lemma stamped_clock (d : pydict) (w : World) :
  (clock_reads w ≤ clock_reads (stamped d w))%nat.
Proof. apply stamped_counters. Qed.

(** ** The connector, method by method *)

Lemma store_same (key : string) (c : GeminiLiveConnector) (w : World) (st : State) :
  session_connectors st !! key = Some c → store key (c, w) st = set_world w st.
Proof. intros H. unfold store, set_world. simpl. by rewrite insert_id. Qed.

Lemma create_access_token_spec (env : Env) (room ident : string) (w : World) :
  create_access_token env room ident w = (Ok (token_at env room ident w), tick w).
Proof. reflexivity. Qed.

Lemma end_session_spec (env : Env) (sid : string) (c : GeminiLiveConnector)
    (s : Session) (w : World) :
  session c = Some s → s_id s = sid →
  end_session env sid (c, w)
    = (Ok (end_result sid (time_time env (clock_reads w) - s_start_time s)%Q),
       (set_session (Some (ended s (time_time env (clock_reads w)))) false c, tick w)).
Proof.
  intros Hs <-. unfold end_session, self_get, self_modify, clock, clock_read.
  py_unfold. simpl. rewrite Hs, String.eqb_refl. reflexivity.
Qed.

Lemma start_session_spec (env : Env) (sid uid : string) (cfg : option pydict)
    (self : GeminiLiveConnector) (w : World) :
  genai_model self = true →
  start_session env sid uid cfg (self, w) =
    let o := generate_content env (ai_calls w) in
    (match o with
     | AIRaises text => Raise (Exn ApiError text)
     | _ => Ok (start_result sid (greeting_for o))
     end,
     (set_session (Some (greeted_session env sid uid cfg w o)) true self,
      greeted_world w o)).
Proof.
  intros Hg. unfold start_session. py_unfold.
  unfold clock, clock_read, self_modify, _generate_content. simpl.
  rewrite Hg. unfold greeted_session, greeted_world, greeting_for.
  destruct (generate_content env (ai_calls w)) as [text| |text]; simpl; try reflexivity.
  destruct (String.eqb text "") eqn:Htext; simpl; try reflexivity.
  unfold append_history, self_get, self_modify. py_unfold. simpl.
  rewrite Htext. reflexivity.
Qed.

Lemma try_block_spec (env : Env) (kind : submission) (payload sid : string)
    (c : GeminiLiveConnector) (s : Session) (w : World) :
  genai_model c = true → is_connected c = true → session c = Some s →
  decodes env kind payload →
  try_block kind env payload sid (c, w) = model_step env kind sid c s w.
Proof.
  intros Hg Hc Hs Hd. unfold model_step.
  destruct kind; simpl in *; unfold audio_try, screen_try, b64decode;
    py_unfold; unfold self_get; simpl; rewrite Hc, Hs; simpl;
    rewrite ?Hd; simpl; unfold _generate_content; rewrite Hg;
    (destruct (generate_content env (ai_calls w)) as [text| |text];
       try reflexivity);
    (destruct (String.eqb text ""); [reflexivity|]);
    unfold clock, clock_read, append_history, self_get, self_modify;
    py_unfold; simpl; rewrite Hs; simpl; rewrite Hc; reflexivity.
Qed.

Lemma audio_undecodable (env : Env) (payload sid text : string)
    (c : GeminiLiveConnector) (s : Session) (w : World) :
  is_connected c = true → session c = Some s →
  b64decode_error env payload = Some text →
  audio_try env payload sid (c, w) = (Raise (Exn BinasciiError text), (c, w)).
Proof.
  intros Hc Hs Hd. unfold audio_try, b64decode. py_unfold. unfold self_get.
  simpl. rewrite Hc, Hs. simpl. rewrite Hd. reflexivity.
Qed.

(** The [try] block of a processing generator, on any connector: it
    raises before the model is called and changes nothing; or it calls the
    model once and leaves the connector as it is; or the model has answered
    with a text and the exchange is recorded. *)
Lemma try_block_cases (env : Env) (kind : submission) (payload sid : string)
    (c : GeminiLiveConnector) (w : World) :
  (∃ e, try_block kind env payload sid (c, w) = (Raise e, (c, w)))
  ∨ (∃ r, try_block kind env payload sid (c, w) = (r, (c, tick_ai w))
          ∧ ∀ text, r ≠ Ok (Some text))
  ∨ (∃ s text,
       session c = Some s ∧ is_connected c = true
       ∧ try_block kind env payload sid (c, w)
         = (Ok (Some text),
            (set_session (Some (recorded env (input_type kind) text sid w s)) true c,
             tick (tick (tick_ai w))))).
Proof.
  destruct (is_connected c) eqn:Hc; [destruct (session c) as [s|] eqn:Hs|].
  - assert (Hmodel : decodes env kind payload →
              (∃ e, try_block kind env payload sid (c, w) = (Raise e, (c, w)))
              ∨ (∃ r, try_block kind env payload sid (c, w) = (r, (c, tick_ai w))
                      ∧ ∀ text, r ≠ Ok (Some text))
              ∨ (∃ s0 text,
                   Some s = Some s0 ∧ true = true
                   ∧ try_block kind env payload sid (c, w)
                     = (Ok (Some text),
                        (set_session
                           (Some (recorded env (input_type kind) text sid w s0)) true c,
                         tick (tick (tick_ai w)))))).
    { intros Hd. destruct (genai_model c) eqn:Hg.
      - rewrite (try_block_spec env kind payload sid c s w Hg Hc Hs Hd).
        unfold model_step.
        destruct (generate_content env (ai_calls w)) as [text| |text].
        + right. left. eexists. split; [reflexivity|discriminate].
        + right. left. eexists. split; [reflexivity|discriminate].
        + destruct (String.eqb text "").
          * right. left. eexists. split; [reflexivity|discriminate].
          * right. right. exists s, text. repeat split.
      - left. destruct kind; simpl in *;
          unfold audio_try, screen_try, b64decode; py_unfold; unfold self_get;
          simpl; rewrite Hc, Hs; simpl; rewrite ?Hd; simpl;
          unfold _generate_content; rewrite Hg; eexists; reflexivity. }
    destruct kind; [|by apply Hmodel].
    destruct (b64decode_error env payload) as [text|] eqn:Hd; [|by apply Hmodel].
    left. eexists. simpl. by apply (audio_undecodable env payload sid text c s w).
  - left. destruct kind; simpl; unfold audio_try, screen_try; py_unfold;
      unfold self_get; simpl; rewrite Hc, Hs; simpl; eexists; reflexivity.
  - left. destruct kind; simpl; unfold audio_try, screen_try; py_unfold;
      unfold self_get; simpl; rewrite Hc; simpl; eexists; reflexivity.
Qed.

(** A submission to a registered session, in terms of what the [try]
    block of the generator comes to. The text item is never sent:
    [TextResponseMessage(...).dict()] holds a [datetime], at which
    [json.dumps] raises inside the loop. *)
Lemma handle_submission_registered (env : Env) (kind : submission) (d : pydict)
    (st : State) (sid payload : string) (c : GeminiLiveConnector) :
  submitted env kind d = Some (sid, payload) →
  session_connectors st !! sid = Some c →
  handle_submission kind env d st =
    match try_block kind env payload sid (c, stamped d (world st)) with
    | (Ok (Some text), s1) =>
        (Ok tt, after_send (critical kind) (store sid (fst s1, tick (tick (snd s1))) st))
    | (Ok None, s1) => (Ok tt, store sid s1 st)
    | (Raise e, s1) =>
        (Ok tt, after_send (failed kind) (store sid (fst s1, tick (snd s1)) st))
    end.
Proof.
  intros Hsub Hc.
  destruct kind; simpl in Hsub |- *.
  - unfold handle_audio_input, AudioInputMessage_new. rewrite built_first. py_unfold.
    destruct (AudioInputMessage_validate env d) as [m|e]; [|discriminate].
    injection Hsub as -> ->. simpl. rewrite Hc. unfold process_audio_input.
    change (world (received d st)) with (stamped d (world st)).
    destruct (audio_try env payload sid (c, stamped d (world st)))
      as [[[text|]|e] [c1 w1]]; simpl; py_unfold; simpl; try reflexivity.
    unfold after_send, store. simpl. rewrite insert_insert_eq. reflexivity.
  - unfold handle_screen_share_frame, ScreenShareFrameMessage_new. rewrite built_first.
    py_unfold.
    destruct (ScreenShareFrameMessage_validate env d) as [m|e]; [|discriminate].
    injection Hsub as -> ->. simpl. rewrite Hc. unfold process_screen_share.
    change (world (received d st)) with (stamped d (world st)).
    destruct (screen_try env payload sid (c, stamped d (world st)))
      as [[[text|]|e] [c1 w1]]; simpl; py_unfold; simpl; try reflexivity.
    unfold after_send, store. simpl. rewrite insert_insert_eq. reflexivity.
Qed.

Lemma active_session_has_session (st : State) (sid : string) (c : GeminiLiveConnector) :
  active_session st sid c →
  ∃ s, session c = Some s ∧ s_id s = sid ∧ s_status s = "active".
Proof.
  intros (_ & _ & _ & Ha). unfold is_session_active in Ha.
  destruct (session c) as [s|]; [|discriminate].
  apply andb_prop in Ha as [H1 H2].
  apply String.eqb_eq in H1. apply String.eqb_eq in H2. eauto.
Qed.

(** A submission to an active session whose payload reaches the model:
    the three things the model can do, and what the client sees. *)
Lemma submission_outcome (env : Env) (kind : submission) (d : pydict) (st : State)
    (sid payload : string) (c : GeminiLiveConnector) (s : Session) :
  submitted env kind d = Some (sid, payload) →
  active_session st sid c →
  session c = Some s →
  decodes env kind payload →
  handle_submission kind env d st =
    match generate_content env (ai_calls (world st)) with
    | AIRaises _ =>
        (Ok tt,
         after_send (failed kind) (set_world (tick (tick_ai (stamped d (world st)))) st))
    | AINone => (Ok tt, set_world (tick_ai (stamped d (world st))) st)
    | AIResponse text =>
        if String.eqb text "" then (Ok tt, set_world (tick_ai (stamped d (world st))) st)
        else
          (Ok tt,
           after_send (critical kind)
             (store sid
                (set_session
                   (Some (recorded env (input_type kind) text sid (stamped d (world st)) s))
                   true c,
                 tick (tick (tick (tick (tick_ai (stamped d (world st)))))))
                st))
    end.
Proof.
  intros Hsub (Hreg & Hg & Hc & _) Hs Hd.
  rewrite (handle_submission_registered env kind d st sid payload c Hsub Hreg).
  rewrite (try_block_spec env kind payload sid c s (stamped d (world st)) Hg Hc Hs Hd).
  unfold model_step. rewrite stamped_ai_calls.
  destruct (generate_content env (ai_calls (world st))) as [text| |text]; simpl.
  - by rewrite store_same.
  - by rewrite store_same.
  - destruct (String.eqb text ""); simpl; [by rewrite store_same | reflexivity].
Qed.

(** The root of the matter: the [dict] of a [TextResponseMessage] is
    not JSON serialisable. *)
Lemma text_response_not_serializable (env : Env) (sid : string) (text : value) (w : World) :
  ∀ doc w', TextResponseMessage_dict env sid text w = (Ok doc, w') →
            ∃ e, json_dumps doc = Raise e ∧ exc_cls e = TypeError.
Proof.
  intros doc w'. unfold TextResponseMessage_dict, now, read_clock.
  destruct text; py_unfold; simpl; try discriminate.
  intros [= <- _]. eexists. split; reflexivity.
Qed.

(** ** Submissions to an active session *)

(** X25. When the model raises during an audio submission to an active
    session, the generator turns the exception into an error item and the
    handler sends exactly one error message, with code
    AUDIO_PROCESSING_ERROR. The session is active as before, with the
    same connector, and both registries are as before. *)
Theorem model_failure_is_recoverable (env : Env) (st : State) (d : pydict)
    (sid payload : string) (c : GeminiLiveConnector) (text : string) :
  submitted env Audio d = Some (sid, payload) →
  active_session st sid c →
  b64decode_error env payload = None →
  generate_content env (ai_calls (world st)) = AIRaises text →
  handle_audio_input env d st
    = (Ok tt,
       after_send audio_failed (set_world (tick (tick_ai (stamped d (world st)))) st))
  ∧ is_error "AUDIO_PROCESSING_ERROR" audio_failed
  ∧ active_session (snd (handle_audio_input env d st)) sid c.
Proof.
  intros Hsub Hact Hd Hai.
  destruct (active_session_has_session st sid c Hact) as (s & Hs & _).
  pose proof (submission_outcome env Audio d st sid payload c s Hsub Hact Hs Hd) as H.
  simpl in H. rewrite Hai in H. rewrite H.
  split; [reflexivity|]. split; [split; reflexivity|]. exact Hact.
Qed.

Lemma model_failure_is_recoverable_witness :
  sent (snd (handle_audio_input Demo.flaky (Demo.audio_data "s1")
               (Demo.started Demo.flaky)))
    = sent (Demo.started Demo.flaky) ++ [audio_failed]
  ∧ is_error "AUDIO_PROCESSING_ERROR" audio_failed
  ∧ active_session
      (snd (handle_audio_input Demo.flaky (Demo.audio_data "s1")
              (Demo.started Demo.flaky))) "s1" (first_connector Demo.flaky).
Proof.
  destruct (model_failure_is_recoverable Demo.flaky (Demo.started Demo.flaky)
              (Demo.audio_data "s1") "s1" "UklGRg==" (first_connector Demo.flaky)
              "503 unavailable")
    as (Hrun & Hcode & Hact).
  - reflexivity.
  - repeat split; vm_compute; reflexivity.
  - reflexivity.
  - vm_compute. reflexivity.
  - split; [by rewrite Hrun|]. split; assumption.
Defined.

(** C6, on the code. When the model answers an audio submission to an
    active session with a non-empty text, the handler sends neither a
    text_response nor an audio_output message: serialising the text message
    raises, the loop is left at the first item, and the one message sent is
    the CRITICAL_AUDIO_ERROR error. The exchange is in the history all the
    same. *)
Theorem text_reply_not_delivered (env : Env) (st : State) (d : pydict)
    (sid payload : string) (c : GeminiLiveConnector) (text : string) :
  submitted env Audio d = Some (sid, payload) →
  active_session st sid c →
  b64decode_error env payload = None →
  generate_content env (ai_calls (world st)) = AIResponse text →
  text ≠ "" →
  let st' := snd (handle_audio_input env d st) in
  sent st' = sent st ++ [critical_audio]
  ∧ is_error "CRITICAL_AUDIO_ERROR" critical_audio
  ∧ ∃ c', session_connectors st' !! sid = Some c'
          ∧ history_count c' = 2 + history_count c.
Proof.
  intros Hsub Hact Hd Hai Htext.
  destruct (active_session_has_session st sid c Hact) as (s & Hs & _).
  pose proof (submission_outcome env Audio d st sid payload c s Hsub Hact Hs Hd) as H.
  simpl in H. rewrite Hai in H.
  apply String.eqb_neq in Htext. rewrite Htext in H.
  cbv zeta. rewrite H. simpl.
  split; [reflexivity|]. split; [split; reflexivity|].
  eexists. split; [apply lookup_insert_eq|].
  unfold history_count. simpl. rewrite Hs.
  rewrite !length_app. simpl. lia.
Qed.

Lemma text_reply_not_delivered_witness :
  sent (snd (handle_audio_input Demo.talkative (Demo.audio_data "s1")
               (Demo.started Demo.talkative)))
    = sent (Demo.started Demo.talkative) ++ [critical_audio].
Proof.
  apply (text_reply_not_delivered Demo.talkative (Demo.started Demo.talkative)
           (Demo.audio_data "s1") "s1" "UklGRg=="
           (started_connector Demo.talkative "s1" "u1" (Some [])
              (tick_init (tick (tick initial_world))) (AIResponse "Hi, I am Cloudy."))
           "Open the S3 console.").
  - reflexivity.
  - repeat split; vm_compute; reflexivity.
  - reflexivity.
  - reflexivity.
  - discriminate.
Defined.

Lemma processing_spec (env : Env) (kind : submission) (payload sid : string) (s : ConnState) :
  processing kind env payload sid s =
    match try_block kind env payload sid s with
    | (Ok (Some text), s1) =>
        Yield (text_response_item text sid (time_time env (clock_reads (snd s1))))
          (fst s1, tick (snd s1))
          (match kind with
           | Audio => fun s3 =>
               Yield (audio_response_item sid (time_time env (clock_reads (snd s3))))
                 (fst s3, tick (snd s3)) (fun s5 => StopAsyncIteration s5)
           | Screen => fun s3 => StopAsyncIteration s3
           end)
    | (Ok None, s1) => StopAsyncIteration s1
    | (Raise e, s1) =>
        Yield (error_item e sid (time_time env (clock_reads (snd s1))))
          (fst s1, tick (snd s1)) (fun s3 => StopAsyncIteration s3)
    end.
Proof.
  destruct kind; simpl; unfold process_audio_input, process_screen_share;
    match goal with |- context [match ?t with _ => _ end] => destruct t as [[[?|]|?] ?] end;
    reflexivity.
Qed.

(** The loop over the response stream of a submission raises in one
    case only, that of a text item: its message does not serialise. An
    error item is sent on and the stream is followed to its end. *)
Lemma stream_outcome (env : Env) (kind : submission) (sid payload : string)
    (c : GeminiLiveConnector) (st : State) (w : World) :
  session_connectors st !! sid = Some c →
  world st = w →
  match try_block kind env payload sid (c, w) with
  | (Ok (Some text), s1) =>
      async_for sid (loop_body kind env sid) (processing kind env payload sid (c, w)) st
        = (Raise (Exn TypeError "Object of type datetime is not JSON serializable"),
           store sid (fst s1, tick (tick (snd s1))) st)
  | (Ok None, s1) =>
      async_for sid (loop_body kind env sid) (processing kind env payload sid (c, w)) st
        = (Ok tt, store sid s1 st)
  | (Raise e, s1) =>
      async_for sid (loop_body kind env sid) (processing kind env payload sid (c, w)) st
        = (Ok tt, after_send (failed kind) (store sid (fst s1, tick (snd s1)) st))
  end.
Proof.
  intros Hreg <-. rewrite processing_spec.
  destruct (try_block kind env payload sid (c, world st)) as [[[text|]|e] [c1 w1]];
    destruct kind; simpl; py_unfold; simpl; try reflexivity;
    unfold after_send, store; simpl; by rewrite insert_insert_eq.
Qed.

Lemma recorded_active (env : Env) (kind : submission) (text sid : string) (w : World)
    (c : GeminiLiveConnector) (s : Session) (st st' : State) :
  active_session st sid c →
  session c = Some s →
  session_connectors st' !! sid
    = Some (set_session (Some (recorded env (input_type kind) text sid w s)) true c) →
  active_session st' sid
    (set_session (Some (recorded env (input_type kind) text sid w s)) true c).
Proof.
  intros (_ & Hg & _ & Ha) Hs Hreg. unfold is_session_active in Ha. rewrite Hs in Ha.
  repeat split; try assumption.
Qed.

(** C5. When the loop over the response stream of an audio submission to
    an active session raises, the handler sends exactly one message, the
    error with code CRITICAL_AUDIO_ERROR, and the session is still
    registered and active, its room record untouched. *)
Theorem stream_failure_is_critical (env : Env) (st : State) (d : pydict)
    (sid payload : string) (c : GeminiLiveConnector) (e : exn) :
  submitted env Audio d = Some (sid, payload) →
  active_session st sid c →
  fst (async_for sid (audio_body env sid)
         (process_audio_input env payload sid (c, stamped d (world st)))
         (received d st)) = Raise e →
  let st' := snd (handle_audio_input env d st) in
  ∃ doc c',
    sent st' = sent st ++ [doc]
    ∧ is_error "CRITICAL_AUDIO_ERROR" doc
    ∧ active_session st' sid c'
    ∧ room_sessions st' = room_sessions st.
Proof.
  intros Hsub Hact Hraise. pose proof Hact as (Hreg & _).
  pose proof (handle_submission_registered env Audio d st sid payload c Hsub Hreg) as H.
  pose proof (stream_outcome env Audio sid payload c (received d st)
                (stamped d (world st)) Hreg eq_refl) as Hstream.
  simpl in H, Hstream. cbv zeta. rewrite H. clear H.
  destruct (try_block_cases env Audio payload sid c (stamped d (world st)))
    as [[e0 He] | [(r & He & Hr) | (s & text & Hs & Hc & He)]];
    simpl in He; rewrite He in Hstream |- *.
  - rewrite Hstream in Hraise. discriminate.
  - destruct r as [[text|]|e0]; [by destruct (Hr text)| |];
      rewrite Hstream in Hraise; discriminate.
  - exists critical_audio. eexists. simpl.
    split; [reflexivity|]. split; [by split|]. split; [|reflexivity].
    apply (recorded_active env Audio text sid (stamped d (world st)) c s st);
      [assumption..|].
    simpl. apply lookup_insert_eq.
Qed.

Lemma stream_failure_is_critical_witness :
  ∃ doc c',
    sent (snd (handle_audio_input Demo.talkative (Demo.audio_data "s1")
                 (Demo.started Demo.talkative)))
      = sent (Demo.started Demo.talkative) ++ [doc]
    ∧ is_error "CRITICAL_AUDIO_ERROR" doc
    ∧ active_session
        (snd (handle_audio_input Demo.talkative (Demo.audio_data "s1")
                (Demo.started Demo.talkative))) "s1" c'
    ∧ room_sessions
        (snd (handle_audio_input Demo.talkative (Demo.audio_data "s1")
                (Demo.started Demo.talkative)))
      = room_sessions (Demo.started Demo.talkative).
Proof.
  apply (stream_failure_is_critical Demo.talkative (Demo.started Demo.talkative)
           (Demo.audio_data "s1") "s1" "UklGRg==" (first_connector Demo.talkative)
           (Exn TypeError "Object of type datetime is not JSON serializable")).
  - reflexivity.
  - repeat split; vm_compute; reflexivity.
  - vm_compute. reflexivity.
Defined.

(** C10. When the model answers an audio or screen-share submission to
    an active session with no response or with an empty text, the
    generator ends without yielding anything and leaves the connector, its
    history included, as it was; the handler sends nothing. *)
Theorem no_text_is_silence (env : Env) (kind : submission) (st : State) (d : pydict)
    (sid payload : string) (c : GeminiLiveConnector) :
  submitted env kind d = Some (sid, payload) →
  active_session st sid c →
  decodes env kind payload →
  no_text (generate_content env (ai_calls (world st))) →
  processing kind env payload sid (c, stamped d (world st))
    = StopAsyncIteration (c, tick_ai (stamped d (world st)))
  ∧ handle_submission kind env d st
    = (Ok tt, set_world (tick_ai (stamped d (world st))) st)
  ∧ sent (snd (handle_submission kind env d st)) = sent st
  ∧ session_connectors (snd (handle_submission kind env d st)) = session_connectors st.
Proof.
  intros Hsub Hact Hd Hno.
  destruct (active_session_has_session st sid c Hact) as (s & Hs & _).
  pose proof (submission_outcome env kind d st sid payload c s Hsub Hact Hs Hd) as H.
  destruct Hact as (Hreg & Hg & Hc & _).
  rewrite processing_spec.
  rewrite (try_block_spec env kind payload sid c s (stamped d (world st)) Hg Hc Hs Hd).
  unfold model_step. rewrite stamped_ai_calls.
  destruct Hno as [Hno|Hno]; rewrite Hno in H |- *; simpl in H |- *;
    rewrite H; repeat split; reflexivity.
Qed.

Lemma no_text_is_silence_witness :
  sent (snd (handle_submission Screen Demo.mute (Demo.screen_data "s1")
               (Demo.started Demo.mute)))
    = sent (Demo.started Demo.mute).
Proof.
  apply (no_text_is_silence Demo.mute Screen (Demo.started Demo.mute)
           (Demo.screen_data "s1") "s1" "iVBORw=="
           (started_connector Demo.mute "s1" "u1" (Some [])
              (tick_init (tick (tick initial_world))) (AIResponse "Hi, I am Cloudy."))).
  - reflexivity.
  - repeat split; vm_compute; reflexivity.
  - exact I.
  - left. reflexivity.
Defined.

(** ** Starting a session *)

(** [handle_start_session] on a command that validates, case by case:
    model initialisation raises; the greeting call raises; the greeting
    call returns. *)
Lemma handle_start_session_spec (env : Env) (d : pydict) (st : State)
    (m : StartSessionMessage) :
  StartSessionMessage_validate env d = Ok m →
  let w1 := after_id (stamped d (world st)) m in
  let sid := chosen_id env (world st) m in
  let uid := ssm_user_id m in
  let w2 := tick_init (tick w1) in
  let o := generate_content env (ai_calls (world st)) in
  handle_start_session env d st =
    match GenerativeModel env (model_inits (world st)) with
    | Some text => (Ok tt, after_send (start_failed text) (set_world w2 st))
    | None =>
        match o with
        | AIRaises text =>
            (Ok tt, after_send (start_failed text) (set_world (greeted_world w2 o) st))
        | _ =>
            (Ok tt,
             after_send
               (session_started_message env sid (room_of env sid)
                  (token_at env (room_of env sid) uid w1))
               (register sid (started_connector env sid uid (ssm_config m) w2 o)
                  (room_record env sid uid w1 o)
                  (set_world (tick (greeted_world w2 o)) st)))
        end
    end.
Proof.
  intros Hm. cbv zeta. unfold handle_start_session, StartSessionMessage_new.
  rewrite built_first.
  unfold try_except at 1. unfold bind at 1. unfold lift_result at 1. rewrite Hm.
  unfold bind at 1.
  assert (Hid : (if str_truthy (ssm_session_id m)
                 then ret (default "" (ssm_session_id m)) else draw_uuid env)
                  (received d st)
                = (Ok (chosen_id env (world st) m),
                   set_world (after_id (stamped d (world st)) m) st)).
  { unfold chosen_id, after_id, draw_uuid, ret, received, set_world. simpl.
    destruct (str_truthy (ssm_session_id m)); [reflexivity|].
    simpl. by rewrite stamped_uuid_draws. }
  rewrite Hid. clear Hid.
  unfold bind at 1. unfold in_world at 1. rewrite create_access_token_spec.
  unfold bind at 1. unfold call at 1. unfold initialize. simpl.
  assert (Hi : model_inits (after_id (stamped d (world st)) m) = model_inits (world st)).
  { unfold after_id. destruct (str_truthy _); simpl; apply stamped_model_inits. }
  assert (Ha : ai_calls (after_id (stamped d (world st)) m) = ai_calls (world st)).
  { unfold after_id. destruct (str_truthy _); simpl; apply stamped_ai_calls. }
  rewrite Hi.
  destruct (GenerativeModel env (model_inits (world st))) as [text|].
  { reflexivity. }
  unfold bind at 1. unfold call at 1. simpl.
  rewrite start_session_spec by reflexivity. simpl. rewrite Ha.
  destruct (generate_content env (ai_calls (world st))) as [text| |text]; reflexivity.
Qed.








(** After the second start of [s1], by another user, the room record of
    [s1] names that user and the history of the first session is gone. *)
Example duplicate_start_overwrites :
  let st' := snd (handle_start_session Demo.talkative (Demo.start_data "s1" "u2")
                    (Demo.started Demo.talkative)) in
  rs_user_id <$> room_sessions st' !! "s1" = Some "u2"
  ∧ (s_user_id <$> (session_connectors st' !! "s1" ≫= session)) = Some "u2".
Proof. vm_compute. split; reflexivity. Qed.


(** ** Token issuance *)




(** Two issuances within one whole second yield the same token. *)
Lemma same_second_same_token (env : Env) (room ident : string) (w1 w2 : World) :
  py_int (time_time env (clock_reads w1)) = py_int (time_time env (clock_reads w2)) →
  token_at env room ident w1 = token_at env room ident w2.
Proof. intros H. unfold token_at, expiry_at. by rewrite H. Qed.


(** ** The message loop *)

Lemma send_error_spec (code text : string) (st : State) :
  send_json (error_message code text) st
    = (Ok tt, after_send (error_message code text) st).
Proof. reflexivity. Qed.

Lemma try_except_total {S : Type} (m : M S unit) (h : exn -> M S unit) (s : S) :
  (∀ e s', fst (h e s') = Ok tt) → fst (try_except m h s) = Ok tt.
Proof.
  intros Hh. unfold try_except. destruct (m s) as [[[]|e] s']; [reflexivity|apply Hh].
Qed.

Lemma try_except_ok {S : Type} (m : M S unit) (h : exn -> M S unit) (s : S) :
  fst (m s) = Ok tt → try_except m h s = m s.
Proof.
  unfold try_except. destruct (m s) as [[[]|e] s']; [reflexivity|discriminate].
Qed.

(** Every handler ends in an [except Exception] that only sends an error
    message: no exception leaves a handler. *)
Lemma handler_never_raises (cmd : command) (env : Env) (d : pydict) (st : State) :
  fst (handler_of cmd env d st) = Ok tt.
Proof.
  destruct cmd; simpl;
    unfold handle_start_session, handle_audio_input, handle_screen_share_frame,
      handle_end_session;
    apply try_except_total; intros e s'; reflexivity.
Qed.

Lemma py_eq_str_true (v : option value) (s : string) :
  py_eq_str v s = true ↔ v = Some (VStr s).
Proof.
  unfold py_eq_str. destruct v as [[]|]; try (split; [discriminate|congruence]).
  rewrite String.eqb_eq. split; congruence.
Qed.

Lemma dispatch (cmd : command) (env : Env) (d : pydict) (st : State) :
  dict_get "action" d = Some (VStr (action_of cmd)) →
  on_message env (Json (VDict d)) st = handler_of cmd env d st.
Proof.
  intros Ha. unfold on_message.
  rewrite try_except_ok.
  - unfold bind, lift_result. simpl. rewrite Ha. by destruct cmd.
  - unfold bind, lift_result. simpl. rewrite Ha.
    destruct cmd; simpl;
      [apply (handler_never_raises StartSession) | apply (handler_never_raises AudioInput)
      | apply (handler_never_raises ScreenShareFrame) | apply (handler_never_raises EndSession)].
Qed.

Lemma on_message_never_raises (env : Env) (message : frame) (st : State) :
  fst (on_message env message st) = Ok tt.
Proof.
  unfold on_message. apply try_except_total.
  intros e s'. by destruct (exc_cls e).
Qed.

Lemma run_cons (env : Env) (message : frame) (rest : list frame) (st : State) :
  run env (message :: rest) st = run env rest (snd (on_message env message st)).
Proof.
  pose proof (on_message_never_raises env message st) as H.
  unfold run. simpl.
  destruct (on_message env message st) as [[[]|e] st']; [reflexivity|discriminate].
Qed.

(** A frame is handed to the handler of its action, or refused with one
    error message. *)
Lemma frame_cases (env : Env) (message : frame) (st : State) :
  (∃ cmd d,
     message = Json (VDict d)
     ∧ dict_get "action" d = Some (VStr (action_of cmd))
     ∧ (∀ cmd', dict_get "action" d = Some (VStr (action_of cmd')) → cmd' = cmd)
     ∧ on_message env message st = handler_of cmd env d st)
  ∨ (∃ text,
       on_message env message st
         = (Ok tt, after_send (error_message (frame_refusal message) text) st)
       ∧ (∀ d, message = Json (VDict d) →
               ∀ cmd, dict_get "action" d ≠ Some (VStr (action_of cmd)))).
Proof.
  destruct message as [|closed| |data].
  1-3: right; eexists; split; [reflexivity|]; intros d; discriminate.
  destruct data as [| | | | | | |d];
    try (right; exists "Internal server error";
         split; [reflexivity|]; intros d; discriminate).
  destruct (py_eq_str (dict_get "action" d) ActionType.START_SESSION) eqn:E1;
    [|destruct (py_eq_str (dict_get "action" d) ActionType.AUDIO_INPUT) eqn:E2;
      [|destruct (py_eq_str (dict_get "action" d) ActionType.SCREEN_SHARE_FRAME) eqn:E3;
        [|destruct (py_eq_str (dict_get "action" d) ActionType.END_SESSION) eqn:E4]]].
  1-4: left;
    match goal with
    | H : py_eq_str _ _ = true |- _ => apply py_eq_str_true in H
    end.
  - exists StartSession, d. repeat split; [assumption| |by apply dispatch].
    intros cmd' H'. rewrite E1 in H'. destruct cmd'; [reflexivity|discriminate..].
  - exists AudioInput, d. repeat split; [assumption| |by apply dispatch].
    intros cmd' H'. rewrite E2 in H'. destruct cmd'; first [reflexivity|discriminate].
  - exists ScreenShareFrame, d. repeat split; [assumption| |by apply dispatch].
    intros cmd' H'. rewrite E3 in H'. destruct cmd'; first [reflexivity|discriminate].
  - exists EndSession, d. repeat split; [assumption| |by apply dispatch].
    intros cmd' H'. rewrite E4 in H'. destruct cmd'; first [reflexivity|discriminate].
  - right. exists ("Unknown action: " +:+ py_str env (default VNone (dict_get "action" d))).
    split.
    + unfold on_message, try_except, bind, lift_result. simpl.
      rewrite E1, E2, E3, E4. reflexivity.
    + intros d' [= <-] cmd Hcmd. apply py_eq_str_true in Hcmd.
      destruct cmd; simpl in Hcmd; congruence.
Qed.



(** ** What a frame can do to the log and to the registry *)





(** A submission that does not validate is answered by one error. *)
Lemma handle_submission_invalid (env : Env) (kind : submission) (d : pydict) (st : State) :
  submitted env kind d = None →
  ∃ doc, handle_submission kind env d st = (Ok tt, after_send doc (received d st)).
Proof.
  intros Hsub. destruct kind; simpl in *.
  - unfold handle_audio_input, AudioInputMessage_new. rewrite built_first. py_unfold.
    destruct (AudioInputMessage_validate env d); [discriminate|]. eexists. reflexivity.
  - unfold handle_screen_share_frame, ScreenShareFrameMessage_new. rewrite built_first.
    py_unfold.
    destruct (ScreenShareFrameMessage_validate env d); [discriminate|]. eexists. reflexivity.
Qed.

Lemma handle_submission_unregistered (env : Env) (kind : submission) (st : State)
    (d : pydict) (sid payload : string) :
  submitted env kind d = Some (sid, payload) →
  session_connectors st !! sid = None →
  handle_submission kind env d st
    = (Ok tt, after_send (session_not_found sid) (received d st)).
Proof.
  intros Hsub Hnone.
  destruct kind; simpl in *.
  - unfold handle_audio_input, AudioInputMessage_new. rewrite built_first. py_unfold.
    destruct (AudioInputMessage_validate env d) as [m|e]; [|discriminate].
    injection Hsub as -> ->. simpl. rewrite Hnone. reflexivity.
  - unfold handle_screen_share_frame, ScreenShareFrameMessage_new. rewrite built_first.
    py_unfold.
    destruct (ScreenShareFrameMessage_validate env d) as [m|e]; [|discriminate].
    injection Hsub as -> ->. simpl. rewrite Hnone. reflexivity.
Qed.


(** [handle_end_session], case by case. *)
Lemma handle_end_session_spec (env : Env) (d : pydict) (st : State) :
  handle_end_session env d st =
    match EndSessionMessage_validate env d with
    | Raise e => (Ok tt, after_send (end_failed (exc_text e)) (received d st))
    | Ok m =>
        let sid := esm_session_id m in
        let refused :=
          (Ok tt, after_send
                    (end_failed ("Session " +:+ sid +:+ " not found or already ended"))
                    (received d st)) in
        match session_connectors st !! sid with
        | None => (Ok tt, after_send (session_not_found sid) (received d st))
        | Some c =>
            match session c with
            | Some s =>
                if String.eqb (s_id s) sid then
                  (Ok tt,
                   after_send
                     (session_ended_message sid
                        (VFloat (time_time env (clock_reads (stamped d (world st)))
                                 - s_start_time s)%Q))
                     (disconnect sid (set_world (tick (stamped d (world st))) st)))
                else refused
            | None => refused
            end
        end
    end.
Proof.
  unfold handle_end_session, EndSessionMessage_new. rewrite built_first. py_unfold.
  destruct (EndSessionMessage_validate env d) as [m|e]; [|reflexivity].
  cbv zeta. simpl.
  destruct (session_connectors st !! esm_session_id m) as [c|]; [|reflexivity].
  unfold end_session, self_get, clock, clock_read, self_modify. py_unfold. simpl.
  destruct (session c) as [s|]; [|reflexivity].
  destruct (String.eqb (s_id s) (esm_session_id m)); [|reflexivity].
  simpl. unfold after_send, disconnect, store, set_world. simpl.
  by rewrite delete_insert_eq.
Qed.




(** ** Unknown sessions *)

(** C3. An audio or screen-share submission naming an identifier that is
    not registered, whether never started or ended and removed, is answered
    by exactly one error message, with code SESSION_NOT_FOUND; the model is
    not called, and the registry of connectors, with the histories in it,
    is as before. *)
Theorem unknown_session_not_found (env : Env) (kind : submission) (st : State)
    (d : pydict) (sid payload : string) :
  submitted env kind d = Some (sid, payload) →
  session_connectors st !! sid = None →
  let st' := snd (handle_submission kind env d st) in
  handle_submission kind env d st
    = (Ok tt, after_send (session_not_found sid) (received d st))
  ∧ sent st' = sent st ++ [session_not_found sid]
  ∧ is_error "SESSION_NOT_FOUND" (session_not_found sid)
  ∧ ai_calls (world st') = ai_calls (world st)
  ∧ session_connectors st' = session_connectors st.
Proof.
  intros Hsub Hnone. cbv zeta.
  rewrite (handle_submission_unregistered env kind st d sid payload Hsub Hnone).
  repeat split; try reflexivity. simpl. apply stamped_ai_calls.
Qed.

Lemma unknown_session_not_found_witness :
  handle_audio_input Demo.talkative (Demo.audio_data "s1") initial_state
    = (Ok tt, after_send (session_not_found "s1")
                (received (Demo.audio_data "s1") initial_state)).
Proof.
  apply (unknown_session_not_found Demo.talkative Audio initial_state
           (Demo.audio_data "s1") "s1" "UklGRg==").
  - reflexivity.
  - reflexivity.
Defined.

(** ** Order of the responses *)

(** One submission to an active session whose payload reaches the
    model: what is sent, one call of the model, and the session active
    still. *)
Lemma submission_step (env : Env) (kind : submission) (d : pydict) (st : State)
    (sid payload : string) (c : GeminiLiveConnector) :
  submitted env kind d = Some (sid, payload) →
  active_session st sid c →
  decodes env kind payload →
  let st' := snd (handle_submission kind env d st) in
  sent st' = sent st ++ reply kind (generate_content env (ai_calls (world st)))
  ∧ ai_calls (world st') = S (ai_calls (world st))
  ∧ ∃ c', active_session st' sid c'.
Proof.
  intros Hsub Hact Hd.
  destruct (active_session_has_session st sid c Hact) as (s & Hs & _).
  pose proof (submission_outcome env kind d st sid payload c s Hsub Hact Hs Hd) as H.
  cbv zeta. rewrite H. clear H.
  pose proof (stamped_ai_calls d (world st)) as Hai.
  destruct (generate_content env (ai_calls (world st))) as [text| |text]; simpl.
  - split; [reflexivity|]. split; [by rewrite Hai|]. by exists c.
  - split; [by rewrite app_nil_r|]. split; [by rewrite Hai|]. by exists c.
  - destruct (String.eqb text ""); simpl.
    + split; [by rewrite app_nil_r|]. split; [by rewrite Hai|]. by exists c.
    + split; [reflexivity|]. split; [by rewrite Hai|]. eexists.
      apply (recorded_active env kind text sid (stamped d (world st)) c s st);
        [assumption..|].
      simpl. apply lookup_insert_eq.
Qed.

(** C8, on the code. Audio submissions to one active session, handled by
    one message loop, are answered in the order in which they come in: what
    the client is sent is, submission after submission, the answer to the
    model call made for that submission, which is the next call of the
    model; the session is active throughout. But the answer to a text of
    the model is the CRITICAL_AUDIO_ERROR error: the loop over the response
    stream of such a submission raises at the first item, and the stream
    is not consumed to its end. *)
Theorem responses_in_submission_order (env : Env) (st : State) (sid : string)
    (c : GeminiLiveConnector) (ds : list pydict) :
  active_session st sid c →
  Forall (audio_for env sid) ds →
  let st' := run env (map (fun d => Json (VDict d)) ds) st in
  sent st' = sent st ++ replies env Audio (ai_calls (world st)) (length ds)
  ∧ ai_calls (world st') = (ai_calls (world st) + length ds)%nat
  ∧ (∃ c', active_session st' sid c')
  ∧ is_error "AUDIO_PROCESSING_ERROR" (failed Audio)
  ∧ is_error "CRITICAL_AUDIO_ERROR" (critical Audio)
  ∧ ∀ d payload text,
      submitted env Audio d = Some (sid, payload) →
      b64decode_error env payload = None →
      generate_content env (ai_calls (world st)) = AIResponse text →
      text ≠ "" →
      ¬ drained env Audio sid payload c (received d st).
Proof.
  intros Hact Hall. cbv zeta.
  assert (Hrun : sent (run env (map (fun d => Json (VDict d)) ds) st)
                 = sent st ++ replies env Audio (ai_calls (world st)) (length ds)
                 ∧ ai_calls (world (run env (map (fun d => Json (VDict d)) ds) st))
                   = (ai_calls (world st) + length ds)%nat
                 ∧ ∃ c', active_session (run env (map (fun d => Json (VDict d)) ds) st)
                           sid c').
  { clear - Hact Hall. revert st c Hact.
    induction Hall as [|d rest (Ha & payload & Hsub & Hd) Hrest IH]; intros st c Hact.
    - unfold run. simpl. rewrite app_nil_r.
      split; [reflexivity|]. split; [lia|]. by exists c.
    - simpl map. simpl length. rewrite run_cons.
      rewrite (dispatch AudioInput env d st Ha). simpl handler_of.
      destruct (submission_step env Audio d st sid payload c Hsub Hact Hd)
        as (Hsent & Hai & c1 & Hact1).
      simpl in Hsent, Hai, Hact1.
      destruct (IH _ c1 Hact1) as (IH1 & IH2 & IH3).
      rewrite IH1, IH2, Hsent, Hai. simpl.
      split; [by rewrite <- app_assoc|]. split; [lia|exact IH3]. }
  destruct Hrun as (H1 & H2 & H3).
  split; [exact H1|]. split; [exact H2|]. split; [exact H3|].
  split; [by split|]. split; [by split|].
  intros d payload text Hsub Hd Ho Htext Hdrained.
  destruct (active_session_has_session st sid c Hact) as (s & Hs & _).
  pose proof Hact as (Hreg & Hg & Hc & _).
  pose proof (stream_outcome env Audio sid payload c (received d st)
                (stamped d (world st)) Hreg eq_refl) as Hstream.
  simpl in Hstream.
  pose proof (try_block_spec env Audio payload sid c s (stamped d (world st))
                Hg Hc Hs Hd) as Hblock.
  simpl in Hblock. rewrite Hblock in Hstream. unfold model_step in Hstream.
  rewrite stamped_ai_calls, Ho in Hstream.
  apply String.eqb_neq in Htext. rewrite Htext in Hstream.
  unfold drained in Hdrained. simpl in Hdrained.
  rewrite Hstream in Hdrained. discriminate.
Qed.

Lemma responses_in_submission_order_witness :
  sent (run Demo.talkative
          [Json (VDict (Demo.audio_data "s1")); Json (VDict (Demo.audio_data "s1"))]
          (Demo.started Demo.talkative))
    = sent (Demo.started Demo.talkative) ++ [critical_audio; critical_audio]
  ∧ ¬ drained Demo.talkative Audio "s1" "UklGRg==" (first_connector Demo.talkative)
        (received (Demo.audio_data "s1") (Demo.started Demo.talkative)).
Proof.
  destruct (responses_in_submission_order Demo.talkative (Demo.started Demo.talkative)
              "s1" (first_connector Demo.talkative)
              [Demo.audio_data "s1"; Demo.audio_data "s1"])
    as (Hsent & _ & _ & _ & _ & Hleft).
  - repeat split; vm_compute; reflexivity.
  - repeat constructor; exists "UklGRg=="; split; reflexivity.
  - split; [exact Hsent|].
    apply (Hleft (Demo.audio_data "s1") "UklGRg==" "Open the S3 console.");
      [reflexivity|reflexivity|reflexivity|discriminate].
Defined.

(** ** The registry in every reachable state *)

Lemma sound_connector_later (env : Env) (w w' : World) (sid : string)
    (c : GeminiLiveConnector) :
  (clock_reads w ≤ clock_reads w')%nat →
  sound_connector env w sid c → sound_connector env w' sid c.
Proof.
  intros Hle (Hg & Hc & s & Hs & Hid & Hst & i & Hi & Ht).
  repeat split; try assumption.
  exists s. repeat split; try assumption. exists i. split; [lia|assumption].
Qed.

Lemma sound_after_send (env : Env) (doc : value) (st : State) :
  sound_registry env st → sound_registry env (after_send doc st).
Proof. intros H sid c Hreg. by apply H. Qed.

Lemma sound_set_world (env : Env) (w : World) (st : State) :
  (clock_reads (world st) ≤ clock_reads w)%nat →
  sound_registry env st → sound_registry env (set_world w st).
Proof.
  intros Hle H sid c Hreg. simpl.
  apply (sound_connector_later env (world st)); [assumption|by apply H].
Qed.

Lemma sound_received (env : Env) (d : pydict) (st : State) :
  sound_registry env st → sound_registry env (received d st).
Proof. apply sound_set_world, stamped_clock. Qed.

Lemma sound_store (env : Env) (key : string) (s : ConnState) (st : State) :
  (clock_reads (world st) ≤ clock_reads (snd s))%nat →
  sound_connector env (snd s) key (fst s) →
  sound_registry env st → sound_registry env (store key s st).
Proof.
  intros Hle Hs H sid c. simpl. rewrite lookup_insert.
  case_decide as Hk.
  - intros [= <-]. by subst.
  - intros Hreg. apply (sound_connector_later env (world st)); [assumption|by apply H].
Qed.

Lemma sound_disconnect (env : Env) (key : string) (st : State) :
  sound_registry env st → sound_registry env (disconnect key st).
Proof.
  intros H sid c. simpl. rewrite lookup_delete.
  case_decide; [discriminate|]. apply H.
Qed.

Lemma sound_recorded (env : Env) (w w' : World) (sid ty text : string)
    (c : GeminiLiveConnector) (s : Session) :
  (clock_reads w ≤ clock_reads w')%nat →
  session c = Some s →
  sound_connector env w sid c →
  sound_connector env w' sid (set_session (Some (recorded env ty text sid w s)) true c).
Proof.
  intros Hle Hs (Hg & Hc & s' & Hs' & Hid & Hst & i & Hi & Ht).
  rewrite Hs in Hs'. injection Hs' as <-.
  repeat split; try assumption.
  eexists. split; [reflexivity|]. repeat split; try assumption.
  exists i. split; [lia|assumption].
Qed.

(** The [try] block of a processing generator keeps a sound connector
    sound, whatever the payload and the model do. *)
Lemma try_block_sound (env : Env) (kind : submission) (payload sid : string)
    (c : GeminiLiveConnector) (w : World) :
  sound_connector env w sid c →
  let out := try_block kind env payload sid (c, w) in
  sound_connector env (snd (snd out)) sid (fst (snd out))
  ∧ (clock_reads w ≤ clock_reads (snd (snd out)))%nat.
Proof.
  intros Hsound. pose proof Hsound as (Hg & Hc & s & Hs & _).
  assert (Hmodel : decodes env kind payload →
            let out := try_block kind env payload sid (c, w) in
            sound_connector env (snd (snd out)) sid (fst (snd out))
            ∧ (clock_reads w ≤ clock_reads (snd (snd out)))%nat).
  { intros Hd. cbv zeta.
    rewrite (try_block_spec env kind payload sid c s w Hg Hc Hs Hd).
    unfold model_step.
    destruct (generate_content env (ai_calls w)) as [text| |text]; simpl;
      try (split; [exact Hsound|lia]).
    destruct (String.eqb text ""); simpl; [split; [exact Hsound|lia]|].
    split; [|lia]. apply sound_recorded; [simpl; lia|assumption..]. }
  destruct kind; [|by apply Hmodel].
  destruct (b64decode_error env payload) as [text|] eqn:Hd; [|by apply Hmodel].
  cbv zeta. simpl try_block.
  rewrite (audio_undecodable env payload sid text c s w Hc Hs Hd). simpl.
  split; [exact Hsound|lia].
Qed.

Lemma handle_submission_sound (env : Env) (kind : submission) (d : pydict) (st : State) :
  sound_registry env st → sound_registry env (snd (handle_submission kind env d st)).
Proof.
  intros Hsound.
  destruct (submitted env kind d) as [[sid payload]|] eqn:Hsub.
  - destruct (session_connectors st !! sid) as [c|] eqn:Hreg.
    + rewrite (handle_submission_registered env kind d st sid payload c Hsub Hreg).
      pose proof (stamped_clock d (world st)) as Hst.
      destruct (try_block_sound env kind payload sid c (stamped d (world st))
                  (sound_connector_later env _ _ sid c Hst (Hsound sid c Hreg)))
        as [Hc Hle].
      destruct (try_block kind env payload sid (c, stamped d (world st)))
        as [[[text|]|e] [c1 w1]]; simpl in *.
      * apply sound_after_send, sound_store; simpl; [lia| |assumption].
        apply (sound_connector_later env w1); [simpl; lia|assumption].
      * apply sound_store; simpl; [lia|assumption..].
      * apply sound_after_send, sound_store; simpl; [lia| |assumption].
        apply (sound_connector_later env w1); [simpl; lia|assumption].
    + rewrite (handle_submission_unregistered env kind st d sid payload Hsub Hreg).
      by apply sound_after_send, sound_received.
  - destruct (handle_submission_invalid env kind d st Hsub) as [doc ->].
    by apply sound_after_send, sound_received.
Qed.

Lemma handle_end_session_sound (env : Env) (d : pydict) (st : State) :
  sound_registry env st → sound_registry env (snd (handle_end_session env d st)).
Proof.
  intros Hsound. rewrite handle_end_session_spec.
  pose proof (stamped_clock d (world st)) as Hst.
  destruct (EndSessionMessage_validate env d) as [m|e]; cbv zeta;
    [|by apply sound_after_send, sound_received].
  destruct (session_connectors st !! esm_session_id m) as [c|];
    [|by apply sound_after_send, sound_received].
  destruct (session c) as [s|]; [|by apply sound_after_send, sound_received].
  destruct (String.eqb (s_id s) (esm_session_id m));
    [|by apply sound_after_send, sound_received].
  simpl. apply sound_after_send, sound_disconnect, sound_set_world;
    [simpl; lia|assumption].
Qed.

Lemma greeted_session_fields (env : Env) (sid uid : string) (cfg : option pydict)
    (w : World) (o : ai_outcome) :
  s_id (greeted_session env sid uid cfg w o) = sid
  ∧ s_status (greeted_session env sid uid cfg w o) = "active"
  ∧ s_start_time (greeted_session env sid uid cfg w o) = time_time env (S (clock_reads w)).
Proof.
  unfold greeted_session.
  destruct o as [text| |text]; try (repeat split; reflexivity).
  destruct (String.eqb text ""); repeat split; reflexivity.
Qed.

Lemma greeted_world_clock (w : World) (o : ai_outcome) :
  (2 + clock_reads w ≤ clock_reads (greeted_world w o))%nat.
Proof.
  unfold greeted_world. destruct o as [text| |text]; simpl; try lia.
  destruct (String.eqb text ""); simpl; lia.
Qed.

Lemma after_id_clock (w : World) (m : StartSessionMessage) :
  clock_reads (after_id w m) = clock_reads w.
Proof. unfold after_id. by destruct (str_truthy _). Qed.

Lemma sound_register (env : Env) (key : string) (c : GeminiLiveConnector)
    (info : RoomSession) (w : World) (st : State) :
  (clock_reads (world st) ≤ clock_reads w)%nat →
  sound_connector env w key c →
  sound_registry env st → sound_registry env (register key c info (set_world w st)).
Proof.
  intros Hle Hc H sid c'. simpl. rewrite lookup_insert.
  case_decide as Hk.
  - intros [= <-]. by subst.
  - intros Hreg. apply (sound_connector_later env (world st)); [assumption|by apply H].
Qed.

Lemma handle_start_session_sound (env : Env) (d : pydict) (st : State) :
  sound_registry env st → sound_registry env (snd (handle_start_session env d st)).
Proof.
  intros Hsound.
  destruct (StartSessionMessage_validate env d) as [m|e] eqn:Hm.
  - rewrite (handle_start_session_spec env d st m Hm). cbv zeta.
    pose proof (after_id_clock (stamped d (world st)) m) as Hid.
    pose proof (stamped_clock d (world st)) as Hst.
    set (w2 := tick_init (tick (after_id (stamped d (world st)) m))).
    assert (Hw2 : clock_reads w2 = S (clock_reads (stamped d (world st)))).
    { unfold w2. simpl. by rewrite Hid. }
    pose proof (greeted_world_clock w2 (generate_content env (ai_calls (world st))))
      as Hgw.
    destruct (GenerativeModel env (model_inits (world st))).
    { simpl. apply sound_after_send, sound_set_world; [lia|assumption]. }
    assert (Hnew : sound_registry env
              (register (chosen_id env (world st) m)
                 (started_connector env (chosen_id env (world st) m) (ssm_user_id m)
                    (ssm_config m) w2 (generate_content env (ai_calls (world st))))
                 (room_record env (chosen_id env (world st) m) (ssm_user_id m)
                    (after_id (stamped d (world st)) m)
                    (generate_content env (ai_calls (world st))))
                 (set_world
                    (tick (greeted_world w2 (generate_content env (ai_calls (world st)))))
                    st))).
    { apply sound_register; [simpl; lia| |assumption].
      destruct (greeted_session_fields env (chosen_id env (world st) m) (ssm_user_id m)
                  (ssm_config m) w2 (generate_content env (ai_calls (world st))))
        as (H1 & H2 & H3).
      repeat split. eexists. split; [reflexivity|].
      repeat split; try assumption.
      exists (S (clock_reads w2)). split; [simpl; lia|assumption]. }
    destruct (generate_content env (ai_calls (world st))) as [text| |text] eqn:Ho; simpl.
    + apply sound_after_send, sound_set_world; [simpl in *; lia|assumption].
    + by apply sound_after_send.
    + by apply sound_after_send.
  - unfold handle_start_session, StartSessionMessage_new. rewrite built_first.
    py_unfold. rewrite Hm. by apply sound_after_send, sound_received.
Qed.

Lemma on_message_sound (env : Env) (message : frame) (st : State) :
  sound_registry env st → sound_registry env (snd (on_message env message st)).
Proof.
  intros Hsound.
  destruct (frame_cases env message st)
    as [(cmd & d & -> & _ & _ & ->) | (text & -> & _)].
  - destruct cmd; simpl.
    + by apply handle_start_session_sound.
    + by apply (handle_submission_sound env Audio).
    + by apply (handle_submission_sound env Screen).
    + by apply handle_end_session_sound.
  - by apply sound_after_send.
Qed.

(** Whatever frames a message loop has handled, starting from the empty
    manager, every registered connector is sound. *)
Lemma run_sound (env : Env) (messages : list frame) (st : State) :
  sound_registry env st → sound_registry env (run env messages st).
Proof.
  revert st. induction messages as [|message rest IH]; intros st Hsound.
  - exact Hsound.
  - rewrite run_cons. by apply IH, on_message_sound.
Qed.

Lemma initial_state_sound (env : Env) : sound_registry env initial_state.
Proof. intros sid c Hreg. simpl in Hreg. by rewrite lookup_empty in Hreg. Qed.

(** ** Ending a session *)

Lemma seconds_monotone (ai : nat -> ai_outcome) :
  monotone_clock (Demo.env_with Demo.seconds ai).
Proof.
  intros i j Hij. simpl. unfold Demo.seconds.
  rewrite <- Zle_Qle. lia.
Qed.






(** ** A conversation *)

(** What the client of one connection sees, message by message: the
    session starts; the spoken question and the screen frame are each
    answered by the critical error, the model's text being lost; the
    session ends; ending it again, a text that is not JSON, a JSON number
    and an unknown action are each refused. *)
Example conversation :
  map label
    (sent (run Demo.talkative
             [Json (VDict (Demo.start_data "s1" "u1"));
              Json (VDict (Demo.audio_data "s1"));
              Json (VDict (Demo.screen_data "s1"));
              Json (VDict (Demo.end_data "s1"));
              Json (VDict (Demo.end_data "s1"));
              Malformed;
              Json (VInt 3);
              Json (VDict [("action", VStr "dance")])]
             initial_state))
  = ["session_started"; "CRITICAL_AUDIO_ERROR"; "CRITICAL_SCREEN_ERROR";
     "session_ended"; "SESSION_NOT_FOUND"; "INVALID_JSON"; "INTERNAL_ERROR";
     "INVALID_ACTION"].
Proof. vm_compute. reflexivity. Qed.

(** With a model that raises after the greeting, and one that returns no
    text: one recoverable error, then silence. *)
Example degraded_conversation :
  map label
    (sent (run Demo.flaky
             [Json (VDict (Demo.start_data "s1" "u1"));
              Json (VDict (Demo.audio_data "s1"))]
             initial_state))
  = ["session_started"; "AUDIO_PROCESSING_ERROR"]
  ∧ map label
      (sent (run Demo.mute
               [Json (VDict (Demo.start_data "s1" "u1"));
                Json (VDict (Demo.audio_data "s1"));
                Json (VDict (Demo.screen_data "s1"))]
               initial_state))
    = ["session_started"].
Proof. vm_compute. split; reflexivity. Qed.

(** ** One frame, in general *)

Lemma world_le_refl (w : World) : world_le w w.
Proof. repeat split; lia. Qed.

Lemma named_id_submission (env : Env) (kind : submission) (d : pydict) (st : State)
    (sid payload : string) :
  dict_get "action" d
    = Some (VStr (action_of match kind with Audio => AudioInput | Screen => ScreenShareFrame end)) →
  submitted env kind d = Some (sid, payload) →
  named_id env st (Json (VDict d)) = Some sid
  ∧ starts_session (Json (VDict d)) = false.
Proof.
  intros Ha Hsub. unfold named_id, starts_session. rewrite Ha.
  destruct kind; cbn -[submitted]; rewrite Hsub; split; reflexivity.
Qed.

Lemma effect_reply_same (env : Env) (st : State) (message : frame) (doc : value) :
  effect env st message (after_send doc st).
Proof.
  apply (effect_reply env st message doc (world st)); [apply world_le_refl|lia].
Qed.

Lemma stamped_arrival (d : pydict) (w : World) : arrival w (stamped d w).
Proof. apply stamped_counters. Qed.

Lemma effect_reply_received (env : Env) (st : State) (message : frame) (doc : value)
    (d : pydict) :
  effect env st message (after_send doc (received d st)).
Proof.
  destruct (stamped_counters d (world st)) as (H1 & H2 & H3 & H4).
  apply (effect_reply env st message doc (stamped d (world st)));
    [repeat split; lia|lia].
Qed.

Lemma handle_submission_shape (env : Env) (kind : submission) (d : pydict) (st : State) :
  dict_get "action" d
    = Some (VStr (action_of match kind with Audio => AudioInput | Screen => ScreenShareFrame end)) →
  effect env st (Json (VDict d)) (snd (handle_submission kind env d st)).
Proof.
  intros Ha.
  destruct (submitted env kind d) as [[sid payload]|] eqn:Hsub.
  - destruct (named_id_submission env kind d st sid payload Ha Hsub) as [Hid Hns].
    destruct (session_connectors st !! sid) as [c|] eqn:Hreg.
    + rewrite (handle_submission_registered env kind d st sid payload c Hsub Hreg).
      pose proof (stamped_arrival d (world st)) as Harr.
      pose proof Harr as (H1 & H2 & H3 & H4).
      destruct (try_block_cases env kind payload sid c (stamped d (world st)))
        as [[e ->] | [(r & -> & Hr) | (s & text & Hs & Hc & ->)]].
      * simpl. rewrite store_same by assumption.
        apply effect_reply; [repeat split; simpl; lia | simpl; lia].
      * destruct r as [[text|]|e]; simpl.
        -- by destruct (Hr text).
        -- rewrite store_same by assumption. by apply effect_silence.
        -- rewrite store_same by assumption.
           apply effect_reply; [repeat split; simpl; lia | simpl; lia].
      * simpl. by apply effect_record.
    + rewrite (handle_submission_unregistered env kind st d sid payload Hsub Hreg).
      apply effect_reply_received.
  - destruct (handle_submission_invalid env kind d st Hsub) as [doc ->].
    apply effect_reply_received.
Qed.

Lemma handle_start_session_shape (env : Env) (d : pydict) (st : State) :
  dict_get "action" d = Some (VStr ActionType.START_SESSION) →
  effect env st (Json (VDict d)) (snd (handle_start_session env d st)).
Proof.
  intros Ha.
  destruct (StartSessionMessage_validate env d) as [m|e] eqn:Hm.
  - rewrite (handle_start_session_spec env d st m Hm). cbv zeta.
    pose proof (stamped_arrival d (world st)) as Harr.
    pose proof Harr as (A1 & A2 & A3 & A4).
    pose proof (after_id_clock (stamped d (world st)) m) as Hclk.
    assert (Hle : world_le (world st)
                    (tick_init (tick (after_id (stamped d (world st)) m)))).
    { unfold after_id. destruct (str_truthy _); repeat split; simpl; lia. }
    assert (Hai : ai_calls (tick_init (tick (after_id (stamped d (world st)) m)))
                  = ai_calls (world st)).
    { unfold after_id. by destruct (str_truthy _). }
    destruct (GenerativeModel env (model_inits (world st))).
    { simpl. apply effect_reply; [assumption|]. rewrite Hai. lia. }
    destruct (generate_content env (ai_calls (world st))) as [text| |text] eqn:Ho.
    + simpl. destruct Hle as (H1 & H2 & H3 & H4).
      apply effect_reply; [repeat split; simpl in *; lia|]. simpl in *. lia.
    + cbn [snd]. rewrite <- Ho. apply effect_start.
      * exact Harr.
      * simpl. by rewrite Ha.
      * simpl. by rewrite Ha, Hm.
      * rewrite Ho. intros [t Ht]. discriminate.
    + cbn [snd]. rewrite <- Ho. apply effect_start.
      * exact Harr.
      * simpl. by rewrite Ha.
      * simpl. by rewrite Ha, Hm.
      * rewrite Ho. intros [t Ht]. discriminate.
  - unfold handle_start_session, StartSessionMessage_new. rewrite built_first.
    py_unfold. rewrite Hm. apply effect_reply_received.
Qed.

Lemma handle_end_session_shape (env : Env) (d : pydict) (st : State) :
  dict_get "action" d = Some (VStr ActionType.END_SESSION) →
  effect env st (Json (VDict d)) (snd (handle_end_session env d st)).
Proof.
  intros Ha. rewrite handle_end_session_spec.
  destruct (EndSessionMessage_validate env d) as [m|e] eqn:Hm; cbv zeta;
    [|apply effect_reply_received].
  destruct (session_connectors st !! esm_session_id m) as [c|] eqn:Hreg;
    [|apply effect_reply_received].
  destruct (session c) as [s|]; [|apply effect_reply_received].
  destruct (String.eqb (s_id s) (esm_session_id m)); [|apply effect_reply_received].
  simpl. apply (effect_end env st _ (esm_session_id m) _ c).
  - apply stamped_arrival.
  - simpl. by rewrite Ha.
  - simpl. by rewrite Ha, Hm.
  - assumption.
Qed.

(** Whatever the frame, the state after it has one of the five shapes. *)
Lemma on_message_shape (env : Env) (message : frame) (st : State) :
  effect env st message (snd (on_message env message st)).
Proof.
  destruct (frame_cases env message st)
    as [(cmd & d & -> & Ha & _ & ->) | (text & -> & _)].
  - destruct cmd; simpl.
    + by apply handle_start_session_shape.
    + by apply (handle_submission_shape env Audio).
    + by apply (handle_submission_shape env Screen).
    + by apply handle_end_session_shape.
  - apply effect_reply_same.
Qed.

(** ** The footprint of a frame *)

Lemma frame_reply_count (env : Env) (message : frame) (st : State) :
  (length (sent (snd (on_message env message st))) ≤ S (length (sent st)))%nat.
Proof.
  destruct (on_message_shape env message st); simpl;
    rewrite ?length_app; simpl; lia.
Qed.

Lemma greeted_world_calls (w : World) (o : ai_outcome) :
  ai_calls (greeted_world w o) = S (ai_calls w)
  ∧ uuid_draws (greeted_world w o) = uuid_draws w
  ∧ model_inits (greeted_world w o) = model_inits w.
Proof.
  unfold greeted_world. destruct o as [text| |text]; try (repeat split; reflexivity).
  destruct (String.eqb text ""); repeat split; reflexivity.
Qed.

Lemma after_id_le (w : World) (m : StartSessionMessage) :
  world_le w (after_id w m) ∧ ai_calls (after_id w m) = ai_calls w.
Proof. unfold after_id. destruct (str_truthy _); repeat split; simpl; lia. Qed.

Lemma frame_world (env : Env) (message : frame) (st : State) :
  world_le (world st) (world (snd (on_message env message st)))
  ∧ (ai_calls (world (snd (on_message env message st))) ≤ S (ai_calls (world st)))%nat.
Proof.
  destruct (on_message_shape env message st)
    as [doc w Hle Hai | w0 (A1 & A2 & A3 & A4) | ? ? ? ? ? w0 (A1 & A2 & A3 & A4)
       | m doc w0 (A1 & A2 & A3 & A4) | ? ? ? w0 (A1 & A2 & A3 & A4)]; simpl.
  - split; assumption.
  - repeat split; simpl; lia.
  - repeat split; simpl; lia.
  - destruct (after_id_le w0 m) as [(E1 & E2 & E3 & E4) E5].
    pose proof (greeted_world_clock (tick_init (tick (after_id w0 m)))
                  (generate_content env (ai_calls (world st)))) as Hc.
    destruct (greeted_world_calls (tick_init (tick (after_id w0 m)))
                (generate_content env (ai_calls (world st)))) as (Ha & Hu & Hi).
    repeat split; simpl in *; lia.
  - repeat split; simpl; lia.
Qed.

(** X1. A message loop sends at most one message per frame it has
    handled. *)
Theorem at_most_one_reply_per_frame (env : Env) (messages : list frame) (st : State) :
  (length (sent (run env messages st)) ≤ length (sent st) + length messages)%nat.
Proof.
  revert st. induction messages as [|message rest IH]; intros st.
  - unfold run. simpl. lia.
  - rewrite run_cons. specialize (IH (snd (on_message env message st))).
    pose proof (frame_reply_count env message st).
    change (length (message :: rest)) with (S (length rest)). lia.
Qed.

(** X2. A message loop calls the model at most once per frame it has
    handled, and none of the counters of the world (clock readings, model
    calls, identifiers drawn, models initialised) ever goes back. *)
Theorem at_most_one_model_call_per_frame (env : Env) (messages : list frame)
    (st : State) :
  (ai_calls (world (run env messages st)) ≤ ai_calls (world st) + length messages)%nat
  ∧ world_le (world st) (world (run env messages st)).
Proof.
  revert st. induction messages as [|message rest IH]; intros st.
  - unfold run. simpl. split; [lia|apply world_le_refl].
  - rewrite run_cons.
    destruct (IH (snd (on_message env message st))) as (IH1 & IH2 & IH3 & IH4 & IH5).
    destruct (frame_world env message st) as [(H1 & H2 & H3 & H4) H5].
    change (length (message :: rest)) with (S (length rest)).
    repeat split; lia.
Qed.

(** X3. Handling a frame leaves the connector and the room record of
    every identifier other than the one the frame names as they were. *)
Theorem other_sessions_untouched (env : Env) (message : frame) (st : State)
    (other : string) :
  named_id env st message ≠ Some other →
  session_connectors (snd (on_message env message st)) !! other
    = session_connectors st !! other
  ∧ room_sessions (snd (on_message env message st)) !! other
    = room_sessions st !! other.
Proof.
  intros Hother.
  destruct (on_message_shape env message st)
    as [ | | kind sid text c s w0 _ _ Hid | m doc w0 _ _ Hid | sid doc c w0 _ _ Hid];
    simpl; try (split; reflexivity).
  - split; [|reflexivity]. apply lookup_insert_ne. congruence.
  - split; apply lookup_insert_ne; congruence.
  - split; apply lookup_delete_ne; congruence.
Qed.

Lemma connector_extends_refl (c : GeminiLiveConnector) : connector_extends c c.
Proof.
  repeat split. destruct (session c); [|exact I]. repeat split. reflexivity.
Qed.

(** X4. Handling a frame that is not a start command leaves every
    session that stays registered the one it was: same identifier, user,
    configuration, start time and status, same connection flags, and a
    history that has the former history as a prefix. *)
Theorem history_only_grows (env : Env) (message : frame) (st : State)
    (sid : string) (c c' : GeminiLiveConnector) :
  starts_session message = false →
  session_connectors st !! sid = Some c →
  session_connectors (snd (on_message env message st)) !! sid = Some c' →
  connector_extends c c'.
Proof.
  intros Hns Hreg.
  destruct (on_message_shape env message st)
    as [ | | kind sid0 text c0 s w0 _ _ _ Hreg0 Hs Hc | m doc w0 _ Hst
       | sid0 doc c0 w0 _ _ _ _]; simpl.
  - intros Hafter. rewrite Hreg in Hafter. injection Hafter as <-.
    apply connector_extends_refl.
  - intros Hafter. rewrite Hreg in Hafter. injection Hafter as <-.
    apply connector_extends_refl.
  - rewrite lookup_insert. case_decide as Hk.
    + subst sid0. rewrite Hreg in Hreg0. injection Hreg0 as <-.
      intros [= <-]. repeat split; try (symmetry; assumption).
      simpl. rewrite Hs. repeat split.
      exists [[("type", VStr (input_type kind));
               ("timestamp", VFloat (time_time env (clock_reads w0)));
               ("session_id", VStr sid)];
              [("type", VStr "assistant_text"); ("content", VStr text);
               ("timestamp", VFloat (time_time env (S (clock_reads w0))));
               ("session_id", VStr sid)]].
      simpl. by rewrite <- app_assoc.
    + intros Hafter. rewrite Hreg in Hafter. injection Hafter as <-.
    apply connector_extends_refl.
  - congruence.
  - rewrite lookup_delete. case_decide; [discriminate|].
    intros Hafter. rewrite Hreg in Hafter. injection Hafter as <-.
    apply connector_extends_refl.
Qed.

(** ** Invariants of the manager *)

Lemma run_invariant (env : Env) (I : State -> Prop) :
  (∀ st message st', I st → effect env st message st' → I st') →
  ∀ messages st, I st → I (run env messages st).
Proof.
  intros Hstep messages. induction messages as [|message rest IH]; intros st Hst.
  - exact Hst.
  - rewrite run_cons. apply IH. eapply Hstep; [exact Hst|apply on_message_shape].
Qed.

Lemma greeted_session_user (env : Env) (sid uid : string) (cfg : option pydict)
    (w : World) (o : ai_outcome) :
  s_user_id (greeted_session env sid uid cfg w o) = uid.
Proof.
  unfold greeted_session. destruct o as [text| |text]; try reflexivity.
  by destruct (String.eqb text "").
Qed.

Lemma paired_step (env : Env) (st : State) (message : frame) (st' : State) :
  paired env st → effect env st message st' → paired env st'.
Proof.
  intros (Hnone & Hroom & Hinfo) Heff.
  destruct Heff as [doc w _ _ | w0 _ | kind sid text c s w0 _ _ _ Hreg Hs Hc
                   | m doc w0 _ _ _ _ | sid doc c w0 _ _ _ Hreg].
  - split; [exact Hnone|]. split; [exact Hroom|exact Hinfo].
  - split; [exact Hnone|]. split; [exact Hroom|exact Hinfo].
  - split; [exact Hnone|]. split.
    + intros sid' c'. simpl. rewrite lookup_insert. case_decide as Hk.
      * subst sid'. intros _. by eapply Hroom.
      * apply Hroom.
    + intros sid' info Hlook. simpl in Hlook.
      destruct (Hinfo sid' info Hlook) as (H1 & H2 & H3 & c0 & s0 & Hc0 & Hs0 & Hu).
      repeat split; try assumption. simpl.
      destruct (decide (sid = sid')) as [<-|Hne].
      * rewrite lookup_insert_eq. eexists _, _. split; [reflexivity|].
        split; [reflexivity|]. simpl.
        rewrite Hreg in Hc0. injection Hc0 as <-. rewrite Hs in Hs0.
        by injection Hs0 as <-.
      * rewrite lookup_insert_ne by assumption. eauto.
  - split; [exact Hnone|]. split.
    + intros sid' c'. simpl. rewrite !lookup_insert.
      case_decide as Hk; [eauto|apply Hroom].
    + intros sid' info. simpl. rewrite !lookup_insert. case_decide as Hk.
      * subst sid'. intros [= <-]. simpl. repeat split.
        -- eexists. reflexivity.
        -- eexists _, _. split; [reflexivity|]. split; [reflexivity|].
           apply greeted_session_user.
      * intros Hlook.
        destruct (Hinfo sid' info Hlook) as (H1 & H2 & H3 & c0 & s0 & Hc0 & Hs0 & Hu).
        repeat split; try assumption. eauto.
  - split; [simpl; rewrite Hnone; apply empty_difference_L|]. split.
    + intros sid' c'. simpl. rewrite !lookup_delete.
      case_decide as Hk; [discriminate|apply Hroom].
    + intros sid' info. simpl. rewrite !lookup_delete. case_decide as Hk; [discriminate|].
      intros Hlook.
      destruct (Hinfo sid' info Hlook) as (H1 & H2 & H3 & c0 & s0 & Hc0 & Hs0 & Hu).
      repeat split; try assumption. eauto.
Qed.

Lemma paired_initial (env : Env) : paired env initial_state.
Proof.
  split; [reflexivity|]. split.
  - intros sid c H. simpl in H. by rewrite lookup_empty in H.
  - intros sid info H. simpl in H. by rewrite lookup_empty in H.
Qed.

(** X5. In every state a message loop can reach from the empty manager,
    an identifier has a connector exactly when it has a room record, and
    the loop never keeps a websocket under any identifier. *)
Theorem registries_go_together (env : Env) (messages : list frame) (sid : string) :
  let st := run env messages initial_state in
  (is_Some (session_connectors st !! sid) ↔ is_Some (room_sessions st !! sid))
  ∧ active_connections st = ∅.
Proof.
  destruct (run_invariant env (paired env) (paired_step env) messages initial_state
              (paired_initial env)) as (Hnone & Hroom & Hinfo).
  cbv zeta. split; [|exact Hnone]. split.
  - intros [c Hc]. by eapply Hroom.
  - intros [info Hi]. destruct (Hinfo sid info Hi) as (_ & _ & _ & c & _ & Hc & _).
    by exists c.
Qed.

(** X6. In every state a message loop can reach, the session route
    answers 404 for an identifier without a connector; for a registered one
    it answers with the room [prefix-identifier], the user of the
    connector's session, the status [active] and a start time. *)
Theorem session_route_reports_registry (env : Env) (messages : list frame)
    (sid : string) :
  let st := run env messages initial_state in
  match session_connectors st !! sid with
  | None => Rest.get_session_info env sid st = HTTPException 404 "Session not found"
  | Some c =>
      ∃ s t, session c = Some s
             ∧ Rest.get_session_info env sid st
               = Http200 (VDict [("session_id", VStr sid);
                                 ("room_name",
                                  VStr (livekit_room_prefix (settings env) +:+ "-" +:+ sid));
                                 ("user_id", VStr (s_user_id s));
                                 ("status", VStr "active");
                                 ("start_time", VStr (isoformat env t))])
  end.
Proof.
  destruct (run_invariant env (paired env) (paired_step env) messages initial_state
              (paired_initial env)) as (Hnone & Hroom & Hinfo).
  cbv zeta. unfold Rest.get_session_info.
  destruct (session_connectors (run env messages initial_state) !! sid) as [c|] eqn:Hc.
  - destruct (Hroom sid c Hc) as [info Hi]. rewrite Hi.
    destruct (Hinfo sid info Hi) as (H1 & H2 & _ & c0 & s0 & Hc0 & Hs0 & Hu).
    rewrite Hc in Hc0. injection Hc0 as <-.
    exists s0, (rs_start_time info). split; [exact Hs0|].
    by rewrite H1, H2, Hu.
  - destruct (room_sessions (run env messages initial_state) !! sid) as [info|] eqn:Hi;
      [|reflexivity].
    destruct (Hinfo sid info Hi) as (_ & _ & _ & c & _ & Hc' & _). congruence.
Qed.

(** X7. In every state a message loop can reach, every registered
    connector has its model, is connected, and holds an active session
    under the very identifier it is registered with. *)
Theorem registered_sessions_are_active (env : Env) (messages : list frame)
    (sid : string) (c : GeminiLiveConnector) :
  session_connectors (run env messages initial_state) !! sid = Some c →
  active_session (run env messages initial_state) sid c
  ∧ ∃ s, session c = Some s ∧ s_id s = sid ∧ s_status s = "active".
Proof.
  intros Hreg.
  destruct (run_sound env messages initial_state (initial_state_sound env) sid c Hreg)
    as (Hg & Hc & s & Hs & Hid & Hst & _).
  split; [|eauto].
  repeat split; try assumption.
  unfold is_session_active. rewrite Hs, Hid, Hst. by rewrite String.eqb_refl.
Qed.

(** ** Histories *)

Lemma timed_le (env : Env) (lo hi : nat) (h : list pydict) :
  timed env lo h hi → (lo ≤ hi)%nat.
Proof. induction 1; lia. Qed.

Lemma timed_snoc (env : Env) (lo hi i : nat) (h : list pydict) (entry : pydict) :
  timed env lo h hi → (hi ≤ i)%nat →
  dict_get "timestamp" entry = Some (VFloat (time_time env i)) →
  timed env lo (h ++ [entry]) (S i).
Proof.
  intros Ht. revert i. induction Ht as [lo|lo j hi e rest Hlo He Hrest IH]; intros i Hi Hentry.
  - simpl. eapply timed_cons; [exact Hi|exact Hentry|constructor].
  - simpl. eapply timed_cons; [exact Hlo|exact He|]. by apply IH.
Qed.

Lemma timed_lookup (env : Env) (lo hi a : nat) (h : list pydict) (entry : pydict) :
  timed env lo h hi → h !! a = Some entry →
  ∃ i, (lo ≤ i)%nat ∧ (i < hi)%nat
       ∧ dict_get "timestamp" entry = Some (VFloat (time_time env i))
       ∧ timed env (S i) (drop (S a) h) hi.
Proof.
  intros Ht. revert a. induction Ht as [lo|lo j hi e rest Hlo He Hrest IH]; intros a Ha.
  - discriminate.
  - destruct a as [|a]; simpl in Ha.
    + injection Ha as <-. exists j. pose proof (timed_le _ _ _ _ Hrest).
      repeat split; [assumption|lia|assumption|]. exact Hrest.
    + destruct (IH a Ha) as (i & H1 & H2 & H3 & H4).
      exists i. repeat split; [lia|assumption..].
Qed.

Lemma timed_session_later (env : Env) (w w' : World) (s : Session) :
  (clock_reads w ≤ clock_reads w')%nat →
  timed_session env w s → timed_session env w' s.
Proof.
  intros Hle (first & hi & H1 & H2 & H3). exists first, hi.
  repeat split; [assumption..|lia].
Qed.

Lemma timed_step (env : Env) (st : State) (message : frame) (st' : State) :
  timed_registry env st → effect env st message st' → timed_registry env st'.
Proof.
  intros Hinv Heff.
  destruct Heff as [doc w (Hle & _) _ | w0 (_ & _ & _ & A4)
                   | kind sid text c s w0 (_ & _ & _ & A4) _ _ Hreg Hs Hc
                   | m doc w0 (_ & _ & _ & A4) _ _ _
                   | sid doc c w0 (_ & _ & _ & A4) _ _ Hreg].
  - intros sid' c' s' Hc' Hs'. simpl in *.
    apply (timed_session_later env (world st)); [assumption|by eapply Hinv].
  - intros sid' c' s' Hc' Hs'. simpl in *.
    apply (timed_session_later env (world st)); [simpl; lia|by eapply Hinv].
  - intros sid' c' s'. simpl. rewrite lookup_insert. case_decide as Hk.
    + intros [= <-]. simpl. intros [= <-].
      destruct (Hinv sid c s Hreg Hs) as (first & hi & H1 & H2 & H3).
      exists first, (S (S (clock_reads w0))).
      split; [exact H1|]. split; [|simpl; lia].
      unfold recorded, push_history. simpl.
      eapply timed_snoc; [eapply timed_snoc; [exact H2| |reflexivity]|lia|reflexivity].
      lia.
    + intros Hc' Hs'.
      apply (timed_session_later env (world st)); [simpl; lia|by eapply Hinv].
  - intros sid' c' s'. simpl. rewrite lookup_insert. case_decide as Hk.
    + intros [= <-]. simpl. intros [= <-].
      set (w2 := tick_init (tick (after_id w0 m))).
      exists (S (clock_reads w2)).
      unfold greeted_session, greeted_world.
      destruct (generate_content env (ai_calls (world st))) as [text| |text].
      * exists (S (S (clock_reads w2))). repeat split; [constructor|simpl; lia].
      * exists (S (S (clock_reads w2))). repeat split; [constructor|simpl; lia].
      * destruct (String.eqb text "").
        -- exists (S (S (clock_reads w2))). repeat split; [constructor|simpl; lia].
        -- exists (S (S (S (clock_reads w2)))). repeat split; [|simpl; lia].
           simpl. eapply timed_cons; [|reflexivity|constructor]. lia.
    + intros Hc' Hs'.
      pose proof (greeted_world_clock (tick_init (tick (after_id w0 m)))
                    (generate_content env (ai_calls (world st)))) as Hclk.
      pose proof (after_id_clock w0 m) as Hid.
      apply (timed_session_later env (world st)); [simpl in *; lia|by eapply Hinv].
  - intros sid' c' s'. simpl. rewrite lookup_delete. case_decide as Hk; [discriminate|].
    intros Hc' Hs'.
    apply (timed_session_later env (world st)); [simpl; lia|by eapply Hinv].
Qed.

Lemma timed_initial (env : Env) : timed_registry env initial_state.
Proof. intros sid c s H. simpl in H. by rewrite lookup_empty in H. Qed.

(** X8. If the clock never runs backwards, the records of the history of
    every registered session are in the order of their timestamps, none of
    them earlier than the start of the session. *)
Theorem history_in_time_order (env : Env) (messages : list frame) (sid : string)
    (c : GeminiLiveConnector) (s : Session) (a b : nat) (e1 e2 : pydict) :
  monotone_clock env →
  session_connectors (run env messages initial_state) !! sid = Some c →
  session c = Some s →
  (a < b)%nat →
  s_history s !! a = Some e1 →
  s_history s !! b = Some e2 →
  ∃ t1 t2,
    dict_get "timestamp" e1 = Some (VFloat t1)
    ∧ dict_get "timestamp" e2 = Some (VFloat t2)
    ∧ (s_start_time s <= t1)%Q ∧ (t1 <= t2)%Q.
Proof.
  intros Hclock Hreg Hs Hab Ha Hb.
  destruct (run_invariant env (timed_registry env) (timed_step env) messages
              initial_state (timed_initial env) sid c s Hreg Hs)
    as (first & hi & Hstart & Htimed & _).
  destruct (timed_lookup env _ _ a _ e1 Htimed Ha) as (i & Hi1 & Hi2 & Hti & Hrest).
  assert (Hb' : drop (S a) (s_history s) !! (b - S a)%nat = Some e2).
  { rewrite lookup_drop. by replace (S a + (b - S a))%nat with b by lia. }
  destruct (timed_lookup env _ _ _ _ e2 Hrest Hb') as (j & Hj1 & Hj2 & Htj & _).
  exists (time_time env i), (time_time env j).
  split; [exact Hti|]. split; [exact Htj|].
  rewrite Hstart. split; apply Hclock; lia.
Qed.

Lemma setitem_same (k : string) (v : value) (d : pydict) :
  dict_get k d = Some v → setitem k v d = d.
Proof.
  induction d as [|[k' v'] d IH]; simpl; [discriminate|].
  destruct (String.eqb k' k); [by intros [= ->]|].
  intros H. by rewrite IH.
Qed.

Lemma serialized_timed (env : Env) (parse : string -> result Q) (lo hi : nat)
    (h : list pydict) :
  timed env lo h hi → serialized_entries parse h = Ok h.
Proof.
  induction 1 as [lo|lo i hi e rest Hlo He Hrest IH]; [reflexivity|].
  simpl. unfold serialized_entry. rewrite He. simpl.
  rewrite (setitem_same _ _ _ He). by rewrite IH.
Qed.

(** X9. For every registered session, [get_session_history] of its
    connector returns the recorded history, record for record and in order;
    asked about any other identifier it returns the empty list. *)
Theorem recorded_history_is_returned (env : Env) (parse : string -> result Q)
    (messages : list frame) (sid : string) (c : GeminiLiveConnector) :
  session_connectors (run env messages initial_state) !! sid = Some c →
  ∃ s, session c = Some s
       ∧ get_session_history parse c sid = Ok (s_history s)
       ∧ ∀ other, other ≠ sid → get_session_history parse c other = Ok [].
Proof.
  intros Hreg.
  destruct (run_sound env messages initial_state (initial_state_sound env) sid c Hreg)
    as (_ & _ & s & Hs & Hid & _).
  destruct (run_invariant env (timed_registry env) (timed_step env) messages
              initial_state (timed_initial env) sid c s Hreg Hs)
    as (first & hi & _ & Htimed & _).
  exists s. split; [exact Hs|]. unfold get_session_history. rewrite Hs, Hid. split.
  - rewrite String.eqb_refl. by eapply serialized_timed.
  - intros other Hne. apply not_eq_sym in Hne. apply String.eqb_neq in Hne.
    by rewrite Hne.
Qed.

(** ** Payloads that are refused *)





(** ** Identifiers and tokens *)


Lemma string_app_assoc (a b c : string) : (a +:+ b) +:+ c = a +:+ b +:+ c.
Proof.
  induction a as [|x a IH]; [reflexivity|].
  change (String x ((a +:+ b) +:+ c) = String x (a +:+ b +:+ c)). by f_equal.
Qed.

(** X14. The canonical string of a token does not keep the identity and
    the room apart: identity [a] in room [b:c] and identity [a:b] in room
    [c] get the same token when issued in the same world. *)
Theorem token_does_not_separate_fields (env : Env) (a b c : string) (w : World) :
  create_access_token env (b +:+ ":" +:+ c) a w
    = create_access_token env c (a +:+ ":" +:+ b) w.
Proof.
  rewrite !create_access_token_spec. unfold token_at, token_data.
  by rewrite !string_app_assoc.
Qed.

(** ** The manager's own sending *)

(** X16. [manager.send_error] never delivers its message: the dict of
    the [ErrorMessage] holds a [datetime], [json.dumps] raises, and
    [send_message] answers the exception by disconnecting. So the log is as
    before; a session that had a websocket is removed from all three
    registries, and for one that had none both registries are unchanged. *)
Theorem send_error_never_delivers (env : Env) (sid code message : string)
    (details : option pydict) (st : State) :
  let st' := snd (send_error env sid code message details st) in
  fst (send_error env sid code message details st) = Ok tt
  ∧ sent st' = sent st
  ∧ (sid ∈ active_connections st →
       (sid ∉ active_connections st')
       ∧ session_connectors st' !! sid = None
       ∧ room_sessions st' !! sid = None)
  ∧ (sid ∉ active_connections st →
       session_connectors st' = session_connectors st
       ∧ room_sessions st' = room_sessions st).
Proof.
  cbv zeta. unfold send_error, send_message, ErrorMessage_dict. py_unfold.
  unfold now, read_clock. simpl.
  destruct (decide (sid ∈ active_connections st)) as [Hin|Hout].
  - rewrite bool_decide_eq_true_2 by assumption. simpl.
    split; [reflexivity|]. split; [reflexivity|]. split; [|done].
    intros _. split; [|split; apply lookup_delete_eq].
    intros [_ Hn]%elem_of_difference. apply Hn. by apply elem_of_singleton.
  - rewrite bool_decide_eq_false_2 by assumption. simpl.
    split; [reflexivity|]. split; [reflexivity|]. split; [done|].
    intros _. split; reflexivity.
Qed.

(** X17. [manager.disconnect] is idempotent, leaves every other
    identifier alone, and changes nothing when the identifier is in none
    of the registries. *)
Theorem disconnect_idempotent_and_local (sid : string) (st : State) :
  disconnect sid (disconnect sid st) = disconnect sid st
  ∧ (∀ other, other ≠ sid →
       session_connectors (disconnect sid st) !! other = session_connectors st !! other
       ∧ room_sessions (disconnect sid st) !! other = room_sessions st !! other
       ∧ (other ∈ active_connections (disconnect sid st) ↔ other ∈ active_connections st))
  ∧ (sid ∉ active_connections st → session_connectors st !! sid = None →
     room_sessions st !! sid = None → disconnect sid st = st).
Proof.
  split; [|split].
  - unfold disconnect. simpl. f_equal.
    + apply difference_twice_L.
    + apply delete_delete_eq.
    + apply delete_delete_eq.
  - intros other Hne. simpl. split; [by apply lookup_delete_ne|].
    split; [by apply lookup_delete_ne|].
    rewrite elem_of_difference, elem_of_singleton. tauto.
  - intros Ha Hc Hr. destruct st as [a cs rs w s]. unfold disconnect. simpl in *.
    f_equal; [|by apply delete_id..].
    apply difference_disjoint_L. by apply disjoint_singleton_r.
Qed.

(** ** The connector after its session has ended *)

(** X18. Once [end_session] has run, the connector refuses every
    submission for the session without calling the model: the generator
    hands out one error item, No active session, and stops; and
    [is_session_active] is false. *)
Theorem ended_connector_refuses (env : Env) (kind : submission) (sid payload : string)
    (c : GeminiLiveConnector) (s : Session) (w w' : World) :
  session c = Some s → s_id s = sid →
  let c' := fst (snd (end_session env sid (c, w))) in
  is_session_active c' sid = false
  ∧ processing kind env payload sid (c', w')
    = Yield (error_item (Exn ValueError "No active session") sid
               (time_time env (clock_reads w')))
        (c', tick w') (fun s3 => StopAsyncIteration s3).
Proof.
  intros Hs Hid c'. unfold c'. rewrite (end_session_spec env sid c s w Hs Hid).
  simpl. split.
  - unfold is_session_active. simpl. apply andb_false_r.
  - destruct kind; reflexivity.
Qed.

Lemma ended_connector_refuses_witness :
  is_session_active
    (fst (snd (end_session Demo.talkative "s1"
                 (started_connector Demo.talkative "s1" "u1" (Some [])
                    (tick_init (tick (tick initial_world))) (AIResponse "Hi, I am Cloudy."),
                  initial_world)))) "s1" = false.
Proof.
  refine (proj1 (ended_connector_refuses Demo.talkative Audio "s1" "UklGRg=="
                   (started_connector Demo.talkative "s1" "u1" (Some [])
                      (tick_init (tick (tick initial_world))) (AIResponse "Hi, I am Cloudy."))
                   (greeted_session Demo.talkative "s1" "u1" (Some [])
                      (tick_init (tick (tick initial_world))) (AIResponse "Hi, I am Cloudy."))
                   initial_world initial_world _ _)).
  - reflexivity.
  - reflexivity.
Defined.

(** X19. [end_session] looks at the identifier only, not at the status:
    ending an ended session succeeds again, with a later end time and a
    longer duration counted from the same start; with another identifier,
    or without a session, it raises the ValueError and changes nothing. *)
Theorem end_session_checks_identifier_only (env : Env) (sid : string)
    (c : GeminiLiveConnector) (w : World) :
  (∀ s, session c = Some s → s_id s = sid →
     ∀ w', ∃ c1 c2,
       end_session env sid (c, w)
         = (Ok (end_result sid (time_time env (clock_reads w) - s_start_time s)%Q),
            (c1, tick w))
       ∧ end_session env sid (c1, w')
         = (Ok (end_result sid (time_time env (clock_reads w') - s_start_time s)%Q),
            (c2, tick w'))
       ∧ session c2 = Some (ended s (time_time env (clock_reads w'))))
  ∧ ((∀ s, session c = Some s → s_id s ≠ sid) →
     end_session env sid (c, w)
       = (Raise (Exn ValueError ("Session " +:+ sid +:+ " not found or already ended")),
          (c, w))).
Proof.
  split.
  - intros s Hs Hid w'. eexists. eexists. split.
    + apply (end_session_spec env sid c s w Hs Hid).
    + split.
      * rewrite (end_session_spec env sid _ (ended s (time_time env (clock_reads w))) w');
          [reflexivity|reflexivity|exact Hid].
      * reflexivity.
  - intros Hother. unfold end_session, self_get. py_unfold. simpl.
    destruct (session c) as [s|] eqn:Hs; [|reflexivity].
    destruct (String.eqb (s_id s) sid) eqn:Heq; [|reflexivity].
    apply String.eqb_eq in Heq. by destruct (Hother s eq_refl).
Qed.

(** ** The integrated service *)

Lemma getitem_setitem_same {A : Type} (k : string) (v : A) (d : list (string * A)) :
  getitem k (setitem k v d) = Some v.
Proof.
  induction d as [|[k' v'] d IH]; simpl.
  - by rewrite String.eqb_refl.
  - destruct (String.eqb k' k) eqn:Hk; simpl; by rewrite Hk.
Qed.

Lemma getitem_setitem_known {A : Type} (k sid : string) (v : A) (d : list (string * A)) :
  getitem sid d ≠ None → getitem sid (setitem k v d) ≠ None.
Proof.
  induction d as [|[k' v'] d IH]; simpl; [done|].
  destruct (String.eqb k' k) eqn:Hk; simpl;
    destruct (String.eqb k' sid) eqn:Hsid; auto.
Qed.

Lemma setitem_Forall {A : Type} (P : A → Prop) (k : string) (v : A)
    (d : list (string * A)) :
  Forall (fun kv => P (snd kv)) d → P v → Forall (fun kv => P (snd kv)) (setitem k v d).
Proof.
  intros Hd Hv. induction Hd as [|[k' v'] d Hx Hd IH]; simpl.
  - by constructor.
  - destruct (String.eqb k' k); constructor; auto.
Qed.

Lemma getitem_Forall {A : Type} (P : A → Prop) (k : string) (v : A)
    (d : list (string * A)) :
  Forall (fun kv => P (snd kv)) d → getitem k d = Some v → P v.
Proof.
  intros Hd. induction Hd as [|[k' v'] d Hx Hd IH]; simpl; [done|].
  destruct (String.eqb k' k); [|exact IH]. by intros [= <-].
Qed.

Lemma set_gemini_same (svc : Integrated.Service) :
  Integrated.set_gemini (Integrated.gemini_connector svc) svc = svc.
Proof. by destruct svc. Qed.

Section Keeps.
Import Integrated.

(** A property of [active_sessions] that survives what the methods do to
    the dict: a new entry with the status [active], the status [ended],
    an end time. *)
Variable P : list (string * Entry) → Prop.
Hypothesis P_active : ∀ d k e, P d → e_status e = "active" → P (setitem k e d).
Hypothesis P_ended : ∀ d k e,
  P d → getitem k d = Some e → P (setitem k (set_status "ended" e) d).
Hypothesis P_end_time : ∀ d k e t,
  P d → getitem k d = Some e → P (setitem k (set_end_time t e) d).

Lemma keeps_ret {A} (a : A) : keeps P (ret a).
Proof. by intros s. Qed.

Lemma keeps_raise {A} (e : exn) : keeps P (@raise _ A e).
Proof. by intros s. Qed.

Lemma keeps_lift {A} (r : result A) : keeps P (lift_result r).
Proof. by intros s. Qed.

Lemma keeps_get : keeps P get.
Proof. by intros s. Qed.

Lemma keeps_bind {A B} (m : M ServiceState A) (k : A → M ServiceState B) :
  keeps P m → (∀ a, keeps P (k a)) → keeps P (bind m k).
Proof.
  intros Hm Hk s Hs. unfold bind. specialize (Hm s Hs).
  destruct (m s) as [[a|e] s1]; simpl in *; [by apply Hk|done].
Qed.

Lemma keeps_try {A} (m : M ServiceState A) (h : exn → M ServiceState A) :
  keeps P m → (∀ e, keeps P (h e)) → keeps P (try_except m h).
Proof.
  intros Hm Hh s Hs. unfold try_except. specialize (Hm s Hs).
  destruct (m s) as [[a|e] s1]; simpl in *; [done|by apply Hh].
Qed.

Lemma keeps_time (env : Env) : keeps P (time env).
Proof. by intros s. Qed.

Lemma keeps_on_gemini {A} (m : M ConnState A) : keeps P (on_gemini m).
Proof.
  intros s Hs. unfold on_gemini.
  by destruct (m (gemini_connector (fst s), snd s)) as [r [c w]].
Qed.

Lemma keeps_no_attribute {A} (name : string) : keeps P (@no_attribute A name).
Proof. by intros s. Qed.

Lemma keeps_disconnect : keeps P livekit_disconnect.
Proof.
  intros s Hs. unfold livekit_disconnect.
  by destruct (lk_room (livekit_connector (fst s))).
Qed.

Lemma keeps_call_back (enabled : Service → bool) (cb : callback) :
  keeps P (call_back enabled cb).
Proof. intros s Hs. unfold call_back. by destruct (enabled (fst s)). Qed.

Lemma keeps_ended (sid : string) : keeps P (update_entry sid (set_status "ended")).
Proof.
  intros s Hs. unfold update_entry.
  destruct (getitem sid (active_sessions (fst s))) as [e|] eqn:He; simpl; [|done].
  by apply P_ended.
Qed.

Lemma keeps_end_time (sid : string) (t : Q) : keeps P (update_entry sid (set_end_time t)).
Proof.
  intros s Hs. unfold update_entry.
  destruct (getitem sid (active_sessions (fst s))) as [e|] eqn:He; simpl; [|done].
  by apply P_end_time.
Qed.

Lemma keeps_initialize (env : Env) : keeps P (Integrated.initialize env).
Proof.
  unfold Integrated.initialize. apply keeps_bind; [|intros _; apply keeps_bind].
  - intros s Hs. unfold livekit_initialize.
    by match goal with
       | |- context [match ?m with _ => _ end] => destruct m as [[?|?] [c w]]
       end.
  - apply keeps_on_gemini.
  - intros _. apply keeps_no_attribute.
Qed.

Lemma keeps_create_session (env : Env) (ext : Extern) (uid : string)
    (cfg : option pydict) : keeps P (create_session env ext uid cfg).
Proof.
  unfold create_session, create_room.
  apply keeps_bind; [apply keeps_time|intros t].
  apply keeps_bind.
  { apply keeps_bind; [apply keeps_lift|intros ?].
    apply keeps_bind; [apply keeps_lift|intros ?].
    apply keeps_bind; [apply keeps_time|intros ?]. apply keeps_ret. }
  intros room_info. apply keeps_bind; [apply keeps_on_gemini|intros g].
  apply keeps_bind; [apply keeps_time|intros started].
  apply keeps_bind; [|intros _; apply keeps_ret].
  intros s Hs. simpl. by apply P_active.
Qed.

Lemma keeps_join_session (sid uid token : string) : keeps P (join_session sid uid token).
Proof.
  intros s Hs. unfold join_session, bind, get. simpl.
  by destruct (getitem sid (active_sessions (fst s))).
Qed.

Lemma keeps_end_session (env : Env) (sid : string) : keeps P (Integrated.end_session env sid).
Proof.
  unfold Integrated.end_session. apply keeps_bind; [apply keeps_get|intros s0].
  destruct (getitem sid (active_sessions (fst s0))); [|apply keeps_raise].
  apply keeps_bind; [apply keeps_on_gemini|intros g].
  apply keeps_bind; [apply keeps_disconnect|intros _].
  apply keeps_bind; [apply keeps_ended|intros _].
  apply keeps_bind; [apply keeps_time|intros t].
  apply keeps_bind; [apply keeps_end_time|intros _]. apply keeps_ret.
Qed.

Lemma keeps_response_body (response : pydict) : keeps P (response_body response).
Proof.
  unfold response_body. apply keeps_bind; [apply keeps_lift|intros ty].
  destruct (py_eq_str (Some ty) "text_response").
  { apply keeps_bind; [apply keeps_lift|intros ?]. apply keeps_call_back. }
  destruct (py_eq_str (Some ty) "error"); [|apply keeps_ret].
  apply keeps_bind; [apply keeps_lift|intros ?]. apply keeps_call_back.
Qed.

Lemma keeps_service_for (gen : AsyncGen) : keeps P (service_for response_body gen).
Proof.
  induction gen as [s1|item s1 resume IH]; intros s Hs; simpl; [done|].
  pose proof (keeps_response_body item (set_gemini (fst s1) (fst s), snd s1) Hs) as Hb.
  destruct (response_body item (set_gemini (fst s1) (fst s), snd s1)) as [[[]|e] s'];
    simpl in *; [|done].
  by apply IH.
Qed.

Lemma keeps_handle_media (env : Env) (ext : Extern) (kind : submission) (data : string) :
  keeps P (handle_media env ext kind data).
Proof.
  unfold handle_media. apply keeps_try; [|intros e; apply keeps_call_back].
  apply keeps_bind; [apply keeps_get|intros s0].
  destruct (_get_current_session_id (fst s0)) as [sid|]; [|apply keeps_ret].
  destruct (String.eqb sid ""); [apply keeps_ret|].
  intros s Hs. by apply keeps_service_for.
Qed.

Lemma keeps_end_connected (env : Env) (keys : list string) : keeps P (end_connected env keys).
Proof.
  induction keys as [|sid keys IH]; simpl; [apply keeps_ret|].
  apply keeps_bind; [apply keeps_get|intros s0].
  destruct (getitem sid (active_sessions (fst s0))) as [e|]; [|apply keeps_raise].
  destruct (String.eqb (e_status e) "connected"); [|exact IH].
  apply keeps_bind; [apply keeps_end_session|intros _; exact IH].
Qed.

Lemma keeps_cleanup (env : Env) : keeps P (cleanup env).
Proof.
  unfold cleanup. apply keeps_try; [|intros e; apply keeps_ret].
  apply keeps_bind; [apply keeps_get|intros s0].
  apply keeps_bind; [apply keeps_end_connected|intros _; apply keeps_disconnect].
Qed.

Lemma perform_keeps (env : Env) (ext : Extern) (op : operation) (s : ServiceState) :
  P (active_sessions (fst s)) → P (active_sessions (fst (perform env ext op s))).
Proof.
  destruct op; simpl.
  - apply keeps_initialize.
  - done.
  - apply keeps_create_session.
  - apply keeps_join_session.
  - apply keeps_handle_media.
  - apply keeps_handle_media.
  - apply keeps_end_session.
  - apply keeps_cleanup.
Qed.

Lemma perform_all_keeps (env : Env) (ext : Extern) (ops : list operation)
    (s : ServiceState) :
  P (active_sessions (fst s)) → P (active_sessions (fst (perform_all env ext ops s))).
Proof.
  revert s. induction ops as [|op ops IH]; intros s Hs; [exact Hs|].
  apply IH. by apply perform_keeps.
Qed.

End Keeps.

Lemma never_connected_reachable (env : Env) (ext : Integrated.Extern)
    (ops : list Integrated.operation) (s : Integrated.ServiceState) :
  never_connected (fst s) →
  never_connected (fst (Integrated.perform_all env ext ops s)).
Proof.
  unfold never_connected.
  apply (perform_all_keeps
           (Forall (fun kv => String.eqb (Integrated.e_status (snd kv)) "connected" = false))).
  - intros d k e Hd He.
    apply (setitem_Forall
             (fun e => String.eqb (Integrated.e_status e) "connected" = false)); [exact Hd|].
    by rewrite He.
  - intros d k e Hd He.
    by apply (setitem_Forall
                (fun e => String.eqb (Integrated.e_status e) "connected" = false)).
  - intros d k e t Hd He.
    apply (setitem_Forall
             (fun e => String.eqb (Integrated.e_status e) "connected" = false)); [exact Hd|].
    simpl.
    exact (getitem_Forall
             (fun e => String.eqb (Integrated.e_status e) "connected" = false) k e d Hd He).
Qed.

Lemma never_connected_current (svc : Integrated.Service) :
  never_connected svc → Integrated._get_current_session_id svc = None.
Proof.
  unfold never_connected, Integrated._get_current_session_id.
  induction 1 as [|[k e] d Hx Hd IH]; simpl; [done|].
  simpl in Hx. by rewrite Hx.
Qed.

(** X20. [join_session] never succeeds: for an unknown session it raises
    the ValueError, for a known one the AttributeError of the call of
    [join_room], which [LiveKitConnector] does not have; the service is
    left as it was, so the status of the session is not set to
    connected. *)
Theorem join_session_never_succeeds (sid uid token : string)
    (s : Integrated.ServiceState) :
  ∃ e, Integrated.join_session sid uid token s = (Raise e, s)
       ∧ exc_cls e = match getitem sid (Integrated.active_sessions (fst s)) with
                     | Some _ => AttributeError
                     | None => ValueError
                     end.
Proof.
  unfold Integrated.join_session, bind, get. simpl.
  destruct (getitem sid (Integrated.active_sessions (fst s)));
    eexists; split; reflexivity.
Qed.

(** X21. Whatever is called on a new service, in whatever order, no
    session is ever active for it: [is_session_active] is false for every
    identifier, there is no current session, and audio and screen input
    from LiveKit is dropped without a model call or a callback. *)
Theorem no_session_is_ever_connected (env : Env) (ext : Integrated.Extern)
    (ops : list Integrated.operation) (w : World) :
  let s := Integrated.perform_all env ext ops (Integrated.new env, w) in
  (∀ sid, Integrated.is_session_active (fst s) sid = false)
  ∧ Integrated._get_current_session_id (fst s) = None
  ∧ (∀ kind data, Integrated.handle_media env ext kind data s = (Ok tt, s)).
Proof.
  intros s.
  assert (Hs : never_connected (fst s)).
  { apply never_connected_reachable. constructor. }
  pose proof (never_connected_current _ Hs) as Hcur.
  split; [|split; [exact Hcur|]].
  - intros sid. unfold Integrated.is_session_active.
    destruct (getitem sid (Integrated.active_sessions (fst s))) as [e|] eqn:He; [|done].
    exact (getitem_Forall
             (fun e => String.eqb (Integrated.e_status e) "connected" = false)
             sid e _ Hs He).
  - intros kind data. unfold Integrated.handle_media, try_except, bind, get. simpl.
    by rewrite Hcur.
Qed.

(** X22. The service never forgets a session: whatever is called on it,
    an identifier that [active_sessions] holds stays in it. *)
Theorem sessions_are_never_forgotten (env : Env) (ext : Integrated.Extern)
    (ops : list Integrated.operation) (s : Integrated.ServiceState) (sid : string) :
  getitem sid (Integrated.active_sessions (fst s)) ≠ None →
  getitem sid (Integrated.active_sessions (fst (Integrated.perform_all env ext ops s)))
    ≠ None.
Proof.
  apply (perform_all_keeps (fun d => getitem sid d ≠ None)).
  - intros d k e Hd _. by apply getitem_setitem_known.
  - intros d k e Hd _. by apply getitem_setitem_known.
  - intros d k e t Hd _. by apply getitem_setitem_known.
Qed.

(** X23. The service has one Gemini connector for all its sessions: a
    later [create_session] that gets its two tokens, whether its greeting
    succeeds or not, takes the connector over, and [end_session] of an
    earlier session raises the ValueError of the connector and leaves the
    service as it is, the earlier session not ended. *)
Theorem later_session_orphans_earlier (env : Env) (ext : Integrated.Extern)
    (s : Integrated.ServiceState) (uid sid user_token ai_token : string)
    (cfg : option pydict) :
  genai_model (Integrated.gemini_connector (fst s)) = true →
  Integrated.to_jwt ext (created_id env uid (snd s)) uid = Ok user_token →
  Integrated.to_jwt ext (created_id env uid (snd s)) "ai-assistant" = Ok ai_token →
  getitem sid (Integrated.active_sessions (fst s)) ≠ None →
  sid ≠ created_id env uid (snd s) →
  let s' := snd (Integrated.create_session env ext uid cfg s) in
  Integrated.end_session env sid s'
    = (Raise (Exn ValueError ("Session " +:+ sid +:+ " not found or already ended")), s').
Proof.
  intros Hg Huser Hai Hknown Hsid s'.
  assert (Hs' : getitem sid (Integrated.active_sessions (fst s')) ≠ None
                ∧ ∃ x, session (Integrated.gemini_connector (fst s')) = Some x
                       ∧ s_id x = created_id env uid (snd s)).
  { unfold s', Integrated.create_session, Integrated.create_room, Integrated.time,
      Integrated.on_gemini, created_id in *.
    py_unfold. simpl. rewrite Huser, Hai. simpl.
    rewrite (start_session_spec env _ uid cfg _ _ Hg). simpl.
    destruct (generate_content env (ai_calls (snd s))) as [text| |text]; simpl;
      (split; [by auto using getitem_setitem_known|]); eexists;
      (split; [reflexivity|]); try reflexivity;
      match goal with |- context [String.eqb ?t ""] => by destruct (String.eqb t "") end. }
  destruct Hs' as (Hknown' & x & Hx & Hid).
  unfold Integrated.end_session, bind, get. simpl.
  destruct (getitem sid (Integrated.active_sessions (fst s'))); [|done].
  unfold Integrated.on_gemini, end_session, self_get. py_unfold. simpl.
  rewrite Hx.
  destruct (String.eqb (s_id x) sid) eqn:Heq.
  { apply String.eqb_eq in Heq. congruence. }
  rewrite set_gemini_same. by destruct s'.
Qed.

(** X24. [initialize] never succeeds: it raises what one of the two
    model constructions raises or, when both succeed, the AttributeError
    of the call of [set_callbacks], which [LiveKitConnector] does not
    have; in that case the Gemini connector of the service is left
    initialised. *)
Theorem initialize_never_succeeds (env : Env) (s : Integrated.ServiceState) :
  ∃ e, fst (Integrated.initialize env s) = Raise e
       ∧ (GenerativeModel env (model_inits (snd s)) = None →
          GenerativeModel env (S (model_inits (snd s))) = None →
          exc_cls e = AttributeError
          ∧ genai_model
              (Integrated.gemini_connector (fst (snd (Integrated.initialize env s))))
            = true).
Proof.
  unfold Integrated.initialize, Integrated.livekit_initialize, Integrated.on_gemini,
    Integrated.no_attribute, initialize.
  py_unfold. simpl.
  destruct (GenerativeModel env (model_inits (snd s))) as [text|] eqn:H1; simpl.
  { eexists. split; [reflexivity|]. intros [=]. }
  destruct (GenerativeModel env (S (model_inits (snd s)))) as [text|] eqn:H2; simpl.
  { eexists. split; [reflexivity|]. intros _ [=]. }
  eexists. split; [reflexivity|]. intros _ _. split; reflexivity.
Qed.

(** ** The theorems above, at work on the demonstration frames *)

Lemma other_sessions_untouched_witness :
  session_connectors
    (snd (on_message Demo.talkative (Json (VDict (Demo.end_data "s1")))
            (two_sessions Demo.talkative))) !! "s2"
  = session_connectors (two_sessions Demo.talkative) !! "s2".
Proof.
  refine (proj1 (other_sessions_untouched Demo.talkative
                   (Json (VDict (Demo.end_data "s1"))) (two_sessions Demo.talkative)
                   "s2" _)).
  vm_compute. discriminate.
Defined.

Lemma history_only_grows_witness :
  ∃ c', session_connectors (asked Demo.talkative) !! "s1" = Some c'
        ∧ connector_extends (first_connector Demo.talkative) c'.
Proof.
  eexists. split.
  - vm_compute. reflexivity.
  - apply (history_only_grows Demo.talkative (Json (VDict (Demo.audio_data "s1")))
             (Demo.started Demo.talkative) "s1").
    + reflexivity.
    + vm_compute. reflexivity.
    + vm_compute. reflexivity.
Defined.

Lemma registered_sessions_are_active_witness :
  active_session (Demo.started Demo.talkative) "s1" (first_connector Demo.talkative).
Proof.
  refine (proj1 (registered_sessions_are_active Demo.talkative
                   [Json (VDict (Demo.start_data "s1" "u1"))] "s1"
                   (first_connector Demo.talkative) _)).
  vm_compute. reflexivity.
Defined.

Lemma history_in_time_order_witness :
  ∃ c s e1 e2 t1 t2,
    session_connectors (asked Demo.talkative) !! "s1" = Some c
    ∧ session c = Some s
    ∧ s_history s !! 0%nat = Some e1 ∧ s_history s !! 2%nat = Some e2
    ∧ dict_get "timestamp" e1 = Some (VFloat t1)
    ∧ dict_get "timestamp" e2 = Some (VFloat t2)
    ∧ (t1 <= t2)%Q.
Proof.
  eassert (Hreg : session_connectors (asked Demo.talkative) !! "s1" = Some _)
    by (vm_compute; reflexivity).
  match type of Hreg with
  | _ = Some ?c =>
      destruct (history_in_time_order Demo.talkative _ "s1" c _ 0 2 _ _
                  (seconds_monotone _) Hreg eq_refl ltac:(lia) eq_refl eq_refl)
        as (t1 & t2 & Ht1 & Ht2 & _ & Hle)
  end.
  do 4 eexists. exists t1, t2.
  split; [exact Hreg|]. split; [reflexivity|]. split; [reflexivity|].
  split; [reflexivity|]. split; [exact Ht1|]. split; [exact Ht2|exact Hle].
Defined.

Lemma recorded_history_is_returned_witness :
  ∃ s, session (first_connector Demo.talkative) = Some s
       ∧ get_session_history (fun _ => Ok 0%Q) (first_connector Demo.talkative) "s1"
         = Ok (s_history s).
Proof.
  destruct (recorded_history_is_returned Demo.talkative (fun _ => Ok 0%Q)
              [Json (VDict (Demo.start_data "s1" "u1"))] "s1"
              (first_connector Demo.talkative))
    as (s & Hs & Hh & _).
  - vm_compute. reflexivity.
  - exists s. split; assumption.
Defined.




Lemma sessions_are_never_forgotten_witness :
  getitem (created_id Demo.talkative "u1" (tick_init (tick_init initial_world)))
    (Integrated.active_sessions
       (fst (Integrated.perform_all Demo.talkative signing
               [Integrated.EndSession
                  (created_id Demo.talkative "u1" (tick_init (tick_init initial_world)));
                Integrated.Cleanup]
               (snd (Integrated.create_session Demo.talkative signing "u1" None
                       (half_initialized Demo.talkative))))))
  ≠ None.
Proof.
  apply (sessions_are_never_forgotten Demo.talkative signing).
  vm_compute. discriminate.
Defined.

Lemma later_session_orphans_earlier_witness :
  let first := created_id Demo.talkative "u1" (tick_init (tick_init initial_world)) in
  let s := snd (Integrated.create_session Demo.talkative signing "u1" None
                  (half_initialized Demo.talkative)) in
  let s' := snd (Integrated.create_session Demo.talkative signing "u2" None s) in
  Integrated.end_session Demo.talkative first s'
    = (Raise (Exn ValueError ("Session " +:+ first +:+ " not found or already ended")), s').
Proof.
  intros first s.
  apply (later_session_orphans_earlier Demo.talkative signing s "u2" first
           (match Integrated.to_jwt signing (created_id Demo.talkative "u2" (snd s)) "u2" with
            | Ok t => t
            | Raise _ => ""
            end)
           (match Integrated.to_jwt signing (created_id Demo.talkative "u2" (snd s))
                    "ai-assistant" with
            | Ok t => t
            | Raise _ => ""
            end) None).
  - reflexivity.
  - reflexivity.
  - reflexivity.
  - vm_compute. discriminate.
  - vm_compute. discriminate.
Defined.
